(** * AQI-WebApp: the AQI computation pipeline of [app1.py]

    A shallow embedding of the pure part of [app1.py]: the breakpoint
    tables and [calculate_sub_index], the category ladder of
    [predict_aqi], [get_health_tip], [get_date_features] and the
    orchestration in [predict_aqi].

    Modelling conventions.
    - Python [int] is [Z].
    - A Python [float] is a [pyfloat]: a finite binary64 number carried as
      the rational it is equal to, or one of the three non-finite values.
      Comparisons are exact, those with the non-finite values follow
      IEEE 754; an arithmetic operation gives the exact result rounded to
      the nearest binary64 number, ties to even ([rnd]); a decimal literal
      of the source denotes the binary64 number nearest to it.
    - A Python [str] whose characters are inspected (the date string, the
      text given to [remove_emojis]) is the list of its code points; the
      texts that are only passed on are [string]s, the non-ASCII characters
      of the advisory texts appearing as their UTF-8 bytes, and
      [code_points] reads such a string as code points.
    - A [dict] is an association list in insertion order.
    - A raised exception is the [Raise] branch of [result]. *)

From Stdlib Require Import ZArith QArith Qround Qpower Qabs Lqa Lia.
From Stdlib Require Import List String Ascii Bool.
Import ListNotations.

Local Open Scope string_scope.
Local Open Scope Z_scope.

(** ** Exceptions *)

Inductive exn : Type :=
| ValueError                 (* strptime, datetime, max of an empty sequence *)
| KeyError (key : string)    (* subscripting a dict with a missing key *)
| ModelRaised (what : string). (* anything escaping [models[p].predict] *)

Inductive result (A : Type) : Type :=
| Ok (a : A)
| Raise (e : exn).

Arguments Ok {A} a.
Arguments Raise {A} e.

Definition bind {A B : Type} (m : result A) (k : A -> result B) : result B :=
  match m with
  | Ok a => k a
  | Raise e => Raise e
  end.

Notation "x <- m ;; k" := (bind m (fun x => k))
  (at level 61, m at next level, right associativity).

(** ** Numbers *)

Inductive pyfloat : Type :=
| Fin (q : Q)
| NaN
| PInf
| NInf.

(** [round(x)] with one argument: nearest integer, ties to the even one. *)
Definition py_round (x : Q) : Z :=
  let f := Qfloor x in
  match ((x - inject_Z f) ?= 1 # 2)%Q with
  | Lt => f
  | Gt => f + 1
  | Eq => if Z.even f then f else f + 1
  end.

(** Binary64 arithmetic.  [ilog2 q] is the integer part of the binary
    logarithm of a positive rational; a binary64 number of the size of [q]
    has its last place at [2 ^ ulp_exp q]: 53 significant bits, and never
    below [2 ^ -1074], the last place of the subnormal numbers.  [rnd]
    rounds to the nearest multiple of that, ties to the even one.  The
    numbers that [calculate_sub_index] computes with are bounded by the
    tables (at most 2400), far below [2 ^ 1024], where binary64 overflows. *)
Definition ilog2 (q : Q) : Z :=
  let k := Z.log2 (Qnum q) - Z.log2 (Zpos (Qden q)) in
  if Qle_bool (2 ^ k) q then k else k - 1.

Definition ulp_exp (q : Q) : Z := Z.max (ilog2 (Qabs q) - 52) (-1074).

Definition rnd (q : Q) : Q :=
  (inject_Z (py_round (q / 2 ^ ulp_exp q)) * 2 ^ ulp_exp q)%Q.

Definition fadd (x y : Q) : Q := rnd (x + y).
Definition fsub (x y : Q) : Q := rnd (x - y).
Definition fmul (x y : Q) : Q := rnd (x * y).
Definition fdiv (x y : Q) : Q := rnd (x / y).

(** A decimal literal with a point, as [1.1] in the source. *)
Definition float_literal (q : Q) : Q := rnd q.

(** ** Dictionaries with string keys *)

Definition dict (V : Type) : Type := list (string * V).

Fixpoint dict_get {V : Type} (d : dict V) (k : string) : result V :=
  match d with
  | [] => Raise (KeyError k)
  | (k', v) :: d' => if String.eqb k k' then Ok v else dict_get d' k
  end.

Fixpoint dict_set {V : Type} (d : dict V) (k : string) (v : V) : dict V :=
  match d with
  | [] => [(k, v)]
  | (k', v') :: d' =>
      if String.eqb k k' then (k', v) :: d' else (k', v') :: dict_set d' k v
  end.

Definition values {V : Type} (d : dict V) : list V := map snd d.

(** ** Breakpoint tables and [calculate_sub_index] *)

Definition pollutants : list string :=
  ["PM2.5"; "PM10"; "NO2"; "NH3"; "SO2"; "CO"; "O3"].

(** One tuple [(low, high, index_low, index_high)]. *)
Definition breakpoint : Type := (Q * Q * Z * Z)%type.

Definition bp (low high : Q) (index_low index_high : Z) : breakpoint :=
  (low, high, index_low, index_high).

Definition breakpoints : dict (list breakpoint) :=
  [ ("PM2.5", [bp 0 30 0 50; bp 31 60 51 100; bp 61 90 101 200;
               bp 91 120 201 300; bp 121 250 301 400; bp 251 500 401 500]);
    ("PM10",  [bp 0 50 0 50; bp 51 100 51 100; bp 101 250 101 200;
               bp 251 350 201 300; bp 351 430 301 400; bp 431 600 401 500]);
    ("NO2",   [bp 0 40 0 50; bp 41 80 51 100; bp 81 180 101 200;
               bp 181 280 201 300; bp 281 400 301 400; bp 401 1000 401 500]);
    ("NH3",   [bp 0 200 0 50; bp 201 400 51 100; bp 401 800 101 200;
               bp 801 1200 201 300; bp 1201 1800 301 400;
               bp 1801 2400 401 500]);
    ("SO2",   [bp 0 40 0 50; bp 41 80 51 100; bp 81 380 101 200;
               bp 381 800 201 300; bp 801 1600 301 400;
               bp 1601 2000 401 500]);
    ("CO",    [bp (float_literal 0.0) (float_literal 1.0) 0 50;
               bp (float_literal 1.1) (float_literal 2.0) 51 100;
               bp (float_literal 2.1) (float_literal 10.0) 101 200;
               bp (float_literal 10.1) (float_literal 17.0) 201 300;
               bp (float_literal 17.1) (float_literal 34.0) 301 400;
               bp (float_literal 34.1) (float_literal 50.0) 401 500]);
    ("O3",    [bp 0 50 0 50; bp 51 100 51 100; bp 101 168 101 200;
               bp 169 208 201 300; bp 209 748 301 400;
               bp 749 1000 401 500]) ].

(** The chained comparison [low <= value <= high]. *)
Definition between (low : Q) (value : pyfloat) (high : Q) : bool :=
  match value with
  | Fin v => Qle_bool low v && Qle_bool v high
  | NaN | PInf | NInf => false
  end.

(** The interpolation expression of the [return] inside the loop: the
    two indices are integers and are subtracted exactly, every other
    operation is one of binary64.  In the tables written in whole numbers
    [high - low] is an integer as well, and [fsub] gives exactly that
    integer; an integer operand of a float operation is converted without
    loss.  No range of the tables has [high = low], so the division never
    raises. *)
Definition interpolate (b : breakpoint) (v : Q) : Z :=
  let '(low, high, index_low, index_high) := b in
  py_round (fadd (fmul (fdiv (inject_Z (index_high - index_low))
                             (fsub high low))
                       (fsub v low))
                 (inject_Z index_low)).

(** The [for bp in breakpoints[pollutant]] loop with its fall-through
    [return 0]. *)
Fixpoint scan (bps : list breakpoint) (value : pyfloat) : Z :=
  match bps with
  | [] => 0
  | b :: rest =>
      let '(low, high, _, _) := b in
      match value with
      | Fin v => if between low value high then interpolate b v
                 else scan rest value
      | _ => scan rest value
      end
  end.

Definition calculate_sub_index (pollutant : string) (value : pyfloat)
  : result Z :=
  bps <- dict_get breakpoints pollutant ;;
  Ok (scan bps value).

(** ** The category ladder of [predict_aqi] and [get_health_tip] *)

Definition category_of (aqi : Z) : string :=
  if aqi <=? 50 then "Good"
  else if aqi <=? 100 then "Satisfactory"
  else if aqi <=? 200 then "Moderate"
  else if aqi <=? 300 then "Poor"
  else if aqi <=? 400 then "Very Poor"
  else "Severe".

Definition get_health_tip (aqi : Z) : string :=
  if aqi <=? 50 then
    "🌿 Good: Air quality is ideal. No precautions needed."
  else if aqi <=? 100 then
    "😊 Satisfactory: Acceptable air quality. Sensitive individuals should avoid outdoor exertion."
  else if aqi <=? 200 then
    "😐 Moderate: Consider limiting prolonged outdoor exertion."
  else if aqi <=? 300 then
    "😷 Poor: People with heart/lung disease, children and older adults should reduce prolonged outdoor exertion."
  else if aqi <=? 400 then
    "🚫 Very Poor: Everyone should avoid outdoor physical activity."
  else
    "🛑 Severe: Avoid all outdoor activity. Use air purifiers indoors.".

(** ** [get_date_features]

    [datetime.strptime(date_str, "%d-%m-%Y")] is Python library code; it is
    modelled from CPython's [_strptime] and [datetime]: the format is turned
    into the regular expression

      (?P<d>3[0-1]|[1-2]\d|0[1-9]|[1-9]| [1-9])-(?P<m>1[0-2]|0[1-9]|[1-9])-(?P<Y>\d\d\d\d)

    which must match a prefix of the input with nothing left over; the three
    groups go through [int] and the date constructor checks the ranges.
    Every failure is a [ValueError].  The date string is the list of its
    code points; [\d] matches every decimal digit of Unicode (category Nd)
    and [int] reads every such digit. *)

Record DateFeatures : Type := mkFeatures
  { Year : Z; Month : Z; Day : Z; DayOfWeek : Z }.

Definition text : Type := list Z.

(** The code point of an ASCII character. *)
Definition char (a : ascii) : Z := Z.of_N (N_of_ascii a).

Definition chr_is (a : ascii) (c : ascii) : bool := Ascii.eqb a c.

(** A character class [[lo-hi]] and a single character, on code points. *)
Definition in_class (lo hi : ascii) (c : Z) : bool :=
  ((char lo <=? c) && (c <=? char hi))%bool.

Definition is_char (a : ascii) (c : Z) : bool := c =? char a.

(** The decimal digits of Unicode come in blocks of ten, zero to nine; these
    are the zeros of the blocks (Unicode 14.0, the table of CPython 3.11;
    later versions add blocks). *)
Definition decimal_zeros : list Z :=
  [48; 1632; 1776; 1984; 2406; 2534; 2662; 2790; 2918; 3046; 3174; 3302;
   3430; 3558; 3664; 3792; 3872; 4160; 4240; 6112; 6160; 6470; 6608;
   6784; 6800; 6992; 7088; 7232; 7248; 42528; 43216; 43264; 43472; 43504;
   43600; 44016; 65296; 66720; 68912; 69734; 69872; 69942; 70096; 70384;
   70736; 70864; 71248; 71360; 71472; 71904; 72016; 72784; 73040; 73120;
   92768; 92864; 93008; 120782; 120792; 120802; 120812; 120822; 123200;
   123632; 125264; 130032].

(** The value of a code point as a decimal digit, if it is one. *)
Definition digit_value (c : Z) : option Z :=
  match find (fun z => ((z <=? c) && (c <=? z + 9))%bool) decimal_zeros with
  | Some z => Some (c - z)
  | None => None
  end.

(** [\d] *)
Definition re_digit (c : Z) : bool :=
  match digit_value c with
  | Some _ => true
  | None => false
  end.

(** A regular expression is run as the list of its matches, in the order
    in which a backtracking matcher tries them: the matched text and the
    rest of the input. *)
Definition matches : Type := list (text * text).

Definition re1 (p : Z -> bool) (s : text) : matches :=
  match s with
  | a :: r => if p a then [([a], r)] else []
  | _ => []
  end.

Definition re2 (p q : Z -> bool) (s : text) : matches :=
  match s with
  | a :: b :: r => if (p a && q b)%bool then [([a; b], r)] else []
  | _ => []
  end.

Definition re_d (s : text) : matches :=
  (re2 (is_char "3") (in_class "0" "1") s
   ++ re2 (in_class "1" "2") re_digit s
   ++ re2 (is_char "0") (in_class "1" "9") s ++ re1 (in_class "1" "9") s
   ++ re2 (is_char " ") (in_class "1" "9") s)%list.

Definition re_m (s : text) : matches :=
  (re2 (is_char "1") (in_class "0" "2") s
   ++ re2 (is_char "0") (in_class "1" "9") s
   ++ re1 (in_class "1" "9") s)%list.

Definition re_Y (s : text) : matches :=
  match s with
  | a :: b :: c :: d :: r =>
      if (re_digit a && re_digit b && re_digit c && re_digit d)%bool
      then [([a; b; c; d], r)] else []
  | _ => []
  end.

Definition re_dash (s : text) : list text :=
  match s with
  | a :: r => if is_char "-" a then [r] else []
  | _ => []
  end.

(** All ways to match the whole expression, first choice first: the groups
    [d], [m], [Y] and what is left of the input. *)
Definition format_regex (s : text) : list (text * text * text * text) :=
  flat_map (fun '(d, r1) =>
  flat_map (fun r2 =>
  flat_map (fun '(m, r3) =>
  flat_map (fun r4 =>
  map (fun '(y, r5) => (d, m, y, r5)) (re_Y r4))
    (re_dash r3)) (re_m r2)) (re_dash r1)) (re_d s).

(** [int(group)] on a group of the expression: decimal digits of any
    script, a leading blank skipped. *)
Fixpoint int_acc (acc : Z) (s : text) : Z :=
  match s with
  | [] => acc
  | c :: r =>
      match digit_value c with
      | Some n => int_acc (10 * acc + n) r
      | None => int_acc acc r
      end
  end.

Definition int (s : text) : Z := int_acc 0 s.

Definition is_leap (year : Z) : bool :=
  ((year mod 4 =? 0) && (negb (year mod 100 =? 0) || (year mod 400 =? 0)))%bool.

Definition DAYS_IN_MONTH (month : Z) : Z :=
  match month with
  | 1 => 31 | 2 => 28 | 3 => 31 | 4 => 30 | 5 => 31 | 6 => 30
  | 7 => 31 | 8 => 31 | 9 => 30 | 10 => 31 | 11 => 30 | 12 => 31
  | _ => -1
  end.

Definition DAYS_BEFORE_MONTH (month : Z) : Z :=
  match month with
  | 1 => 0 | 2 => 31 | 3 => 59 | 4 => 90 | 5 => 120 | 6 => 151
  | 7 => 181 | 8 => 212 | 9 => 243 | 10 => 273 | 11 => 304 | 12 => 334
  | _ => -1
  end.

Definition days_in_month (year month : Z) : Z :=
  if ((month =? 2) && is_leap year)%bool then 29 else DAYS_IN_MONTH month.

Definition days_before_year (year : Z) : Z :=
  let y := year - 1 in y * 365 + y / 4 - y / 100 + y / 400.

Definition days_before_month (year month : Z) : Z :=
  DAYS_BEFORE_MONTH month
  + (if ((2 <? month) && is_leap year)%bool then 1 else 0).

Definition toordinal (year month day : Z) : Z :=
  days_before_year year + days_before_month year month + day.

Definition weekday (year month day : Z) : Z :=
  (toordinal year month day + 6) mod 7.

(** The date constructor's range check. *)
Definition check_date_fields (year month day : Z) : bool :=
  ((1 <=? year) && (year <=? 9999) && (1 <=? month) && (month <=? 12)
   && (1 <=? day) && (day <=? days_in_month year month))%bool.

Definition strptime (date_str : text) : result (Z * Z * Z) :=
  match format_regex date_str with
  | [] => Raise ValueError                         (* does not match format *)
  | (d, m, y, rest) :: _ =>
      match rest with
      | _ :: _ => Raise ValueError                 (* unconverted data remains *)
      | [] =>
          let year := int y in
          let month := int m in
          let day := int d in
          if check_date_fields year month day then Ok (year, month, day)
          else Raise ValueError
      end
  end.

Definition get_date_features (date_str : text) : result DateFeatures :=
  date <- strptime date_str ;;
  let '(year, month, day) := date in
  Ok (mkFeatures year month day (weekday year month day)).

(** ** [predict_aqi] *)

(** [max(xs)] over integers. *)
Definition py_max (xs : list Z) : result Z :=
  match xs with
  | [] => Raise ValueError
  | x :: rest => Ok (fold_left Z.max rest x)
  end.

(** The dict comprehension
    [{p: calculate_sub_index(p, v) for p, v in predicted.items()}]. *)
Fixpoint sub_index_items (items : dict pyfloat) (acc : dict Z)
  : result (dict Z) :=
  match items with
  | [] => Ok acc
  | (p, v) :: rest =>
      i <- calculate_sub_index p v ;;
      sub_index_items rest (dict_set acc p i)
  end.

Section Orchestrator.

(** The unpickled [models]: one object per pollutant name, of which only
    [predict(features)[0]] is used: a binary64 number, or an exception. *)
Variable models : dict (DateFeatures -> result pyfloat).

(** The loop [for pollutant in pollutants: predicted[pollutant] = ...]. *)
Fixpoint predict_loop (ps : list string) (features : DateFeatures)
  (predicted : dict pyfloat) : result (dict pyfloat) :=
  match ps with
  | [] => Ok predicted
  | pollutant :: ps' =>
      model <- dict_get models pollutant ;;
      v <- model features ;;
      predict_loop ps' features (dict_set predicted pollutant v)
  end.

Definition predict_aqi (input_date : text)
  : result (dict pyfloat * dict Z * Z * string) :=
  features <- get_date_features input_date ;;
  predicted <- predict_loop pollutants features [] ;;
  sub_indices <- sub_index_items predicted [] ;;
  aqi <- py_max (values sub_indices) ;;
  Ok (predicted, sub_indices, aqi, category_of aqi).

End Orchestrator.

(** ** Notions used to state the properties *)

Definition bp_low (b : breakpoint) : Q := let '(l, _, _, _) := b in l.
Definition bp_high (b : breakpoint) : Q := let '(_, h, _, _) := b in h.
Definition bp_index_low (b : breakpoint) : Z := let '(_, _, il, _) := b in il.
Definition bp_index_high (b : breakpoint) : Z := let '(_, _, _, ih) := b in ih.

(** [value] lies inside the range of [b], both ends included. *)
Definition inside (b : breakpoint) (value : pyfloat) : bool :=
  between (bp_low b) value (bp_high b).

(** The slope of the interpolation line of a range, as line 30 computes
    it. *)
Definition slope (low high : Q) (index_low index_high : Z) : Q :=
  fdiv (inject_Z (index_high - index_low)) (fsub high low).

(** The value that line 30 gives to [round]. *)
Definition line_value (b : breakpoint) (v : Q) : Q :=
  let '(low, high, index_low, index_high) := b in
  fadd (fmul (slope low high index_low index_high) (fsub v low))
       (inject_Z index_low).

(** The ends of every range give the two ends of its index interval, and
    the index intervals lie between 0 and 500. *)
Definition ends_exact (bps : list breakpoint) : bool :=
  forallb (fun b => (interpolate b (bp_low b) =? bp_index_low b)
                    && (interpolate b (bp_high b) =? bp_index_high b)
                    && (0 <=? bp_index_low b)
                    && (bp_index_high b <=? 500)) bps.

(** The largest tabulated concentration of a table. *)
Definition table_max (bps : list breakpoint) : Q :=
  fold_right (fun b m => if Qle_bool m (bp_high b) then bp_high b else m)
             0%Q bps.

(** A table whose ranges are proper, listed in increasing order without
    overlap, and whose index intervals increase with them. *)
Fixpoint ordered (bps : list breakpoint) : bool :=
  match bps with
  | [] => true
  | b :: rest =>
      negb (Qle_bool (bp_high b) (bp_low b))
      && (bp_index_low b <=? bp_index_high b)
      && match rest with
         | [] => true
         | b' :: _ => negb (Qle_bool (bp_low b') (bp_high b))
                      && (bp_index_high b <=? bp_index_low b')
         end
      && ordered rest
  end.

(** The bucket named at the head of an advisory text: what stands between
    the first blank and the first colon after it. *)
Fixpoint upto_colon (s : string) : string :=
  match s with
  | EmptyString => EmptyString
  | String c r => if chr_is ":" c then EmptyString else String c (upto_colon r)
  end.

Fixpoint tip_bucket (tip : string) : string :=
  match tip with
  | EmptyString => EmptyString
  | String c r => if chr_is " " c then upto_colon r else tip_bucket r
  end.

(** Every table leaves a gap right above the upper end of its first range:
    the midpoint between that end and the lower end of the second range is
    inside the domain of the table and inside none of its ranges. *)
Definition first_gap (bps : list breakpoint) : Q :=
  match bps with
  | b1 :: b2 :: _ => ((bp_high b1 + bp_low b2) / 2)%Q
  | _ => 0%Q
  end.

(** The order on results of [calculate_sub_index]: both are returned and
    the first is at most the second. *)
Definition sub_index_le (r1 r2 : result Z) : Prop :=
  match r1, r2 with
  | Ok i1, Ok i2 => i1 <= i2
  | _, _ => False
  end.

(** The model of a pollutant is there and returns a concentration. *)
Definition model_returns (models : dict (DateFeatures -> result pyfloat))
  (features : DateFeatures) (pollutant : string) (v : pyfloat) : Prop :=
  exists model, dict_get models pollutant = Ok model /\ model features = Ok v.

(** The model of a pollutant is there and raises. *)
Definition model_raises (models : dict (DateFeatures -> result pyfloat))
  (features : DateFeatures) (pollutant : string) (e : exn) : Prop :=
  exists model, dict_get models pollutant = Ok model /\ model features = Raise e.

(** A concentration no measurement can have: not a number, or below zero. *)
Definition invalid_output (v : pyfloat) : Prop :=
  v = NaN \/ exists q : Q, v = Fin q /\ (q < 0)%Q.

(** Constant models for the pollutant order of [pollutants]. *)
Definition constant_models (outputs : list pyfloat)
  : dict (DateFeatures -> result pyfloat) :=
  map (fun '(p, v) => (p, fun _ : DateFeatures => Ok v))
      (combine pollutants outputs).

Definition sample_outputs : list pyfloat :=
  [Fin 24; Fin 60; Fin 130; Fin 40; Fin 4; Fin (float_literal 0.4); Fin 30].

(** Outputs of which the first is negative and the second not a number. *)
Definition faulty_outputs : list pyfloat :=
  [Fin (-5); NaN; Fin 130; Fin 40; Fin 4; Fin (float_literal 0.4); Fin 30].

(** Models of which the one of NO2 raises. *)
Definition raising_models : dict (DateFeatures -> result pyfloat) :=
  dict_set (constant_models sample_outputs) "NO2"
           (fun _ : DateFeatures => Raise (ModelRaised "predict")).

(** ** Dates as the specification words them

    A day-month-year string is a day field, a dash, a month field, a dash
    and a year field.  The day is written with two digits, or below ten with
    one digit, alone or after a blank; the month with two digits, or below
    ten with one; the year with exactly four digits.  The digits of the year
    and the second digit of a day from 10 to 29 may be decimal digits of any
    script; the others are ASCII. *)

Definition ascii_digit (n : Z) : Z := 48 + n.

Definition day_text (t : text) (d : Z) : Prop :=
  1 <= d <= 31
  /\ ((exists c : Z,
          t = [ascii_digit (d / 10); c]
          /\ digit_value c = Some (d mod 10)
          /\ (10 <= d <= 29 \/ c = ascii_digit (d mod 10)))
      \/ (d <= 9 /\ (t = [ascii_digit d] \/ t = [char " "; ascii_digit d]))).

Definition month_text (t : text) (m : Z) : Prop :=
  1 <= m <= 12
  /\ (t = [ascii_digit (m / 10); ascii_digit (m mod 10)]
      \/ (m <= 9 /\ t = [ascii_digit m])).

Definition year_text (t : text) (y : Z) : Prop :=
  exists (c1 c2 c3 c4 : Z) (a b c d : Z),
    t = [c1; c2; c3; c4]
    /\ digit_value c1 = Some a /\ digit_value c2 = Some b
    /\ digit_value c3 = Some c /\ digit_value c4 = Some d
    /\ y = 1000 * a + 100 * b + 10 * c + d.

Definition matches_format (s : text) (d m y : Z) : Prop :=
  exists dt mt yt : text,
    s = (dt ++ char "-" :: mt ++ char "-" :: yt)%list
    /\ day_text dt d /\ month_text mt m /\ year_text yt y.

(** The Gregorian calendar: a year is a leap year when it is a multiple of
    400, or a multiple of 4 and not of 100. *)
Definition leap_year (y : Z) : bool :=
  ((y mod 400 =? 0) || ((y mod 4 =? 0) && negb (y mod 100 =? 0)))%bool.

Definition month_length (y m : Z) : Z :=
  if m =? 2 then (if leap_year y then 29 else 28)
  else if ((m =? 4) || (m =? 6) || (m =? 9) || (m =? 11))%bool then 30
  else 31.

(** A date of the calendar, which starts with year 1. *)
Definition possible_date (y m d : Z) : Prop :=
  1 <= y /\ 1 <= m <= 12 /\ 1 <= d <= month_length y m.

(** The day after a date. *)
Definition next_day (y m d : Z) : Z * Z * Z :=
  if d <? month_length y m then (y, m, d + 1)
  else if m <? 12 then (y, m + 1, 1)
  else (y + 1, 1, 1).

(** The day of the week by counting: the days of the years 1 to [y - 1],
    those of the months 1 to [m - 1] of year [y], and the days before [d];
    1 January of year 1 is a Monday, and Monday is 0. *)
Definition year_length (y : Z) : Z := if leap_year y then 366 else 365.

Fixpoint days_of_years (n : nat) : Z :=
  match n with
  | O => 0
  | S k => days_of_years k + year_length (Z.of_nat (S k))
  end.

Fixpoint days_of_months (y : Z) (n : nat) : Z :=
  match n with
  | O => 0
  | S k => days_of_months y k + month_length y (Z.of_nat (S k))
  end.

Definition days_since_epoch (y m d : Z) : Z :=
  days_of_years (Z.to_nat (y - 1)) + days_of_months y (Z.to_nat (m - 1))
  + (d - 1).

Definition day_of_week (y m d : Z) : Z := days_since_epoch y m d mod 7.

(** The string written by the source file, as Python reads it. *)
Definition digit_char (n : Z) : ascii := ascii_of_N (Z.to_N (48 + n)).

Definition two_digits (n : Z) : string :=
  String (digit_char (n / 10)) (String (digit_char (n mod 10)) "").

(** ** [remove_emojis]

    [re.sub(r'[\U00010000-\U0010ffff]', '', text)] works on the code points
    of [text]: every code point of the class is replaced by nothing. *)

Definition remove_emojis (text : list Z) : list Z :=
  filter (fun c => negb ((65536 <=? c) && (c <=? 1114111))) text.

(** The code points of a string held as UTF-8 bytes; a byte that starts no
    well-formed sequence gives U+FFFD. *)
Definition byte_value (c : ascii) : Z := Z.of_N (N_of_ascii c).

Definition continuation (c : ascii) : bool :=
  (128 <=? byte_value c) && (byte_value c <? 192).

Fixpoint code_points (s : string) : list Z :=
  match s with
  | EmptyString => []
  | String a r =>
      let x := byte_value a in
      if x <? 128 then x :: code_points r
      else
        match r with
        | String b r1 =>
            if ((192 <=? x) && (x <? 224) && continuation b)%bool
            then ((x - 192) * 64 + (byte_value b - 128)) :: code_points r1
            else
              match r1 with
              | String c r2 =>
                  if ((224 <=? x) && (x <? 240)
                      && continuation b && continuation c)%bool
                  then ((x - 224) * 4096 + (byte_value b - 128) * 64
                        + (byte_value c - 128)) :: code_points r2
                  else
                    match r2 with
                    | String d r3 =>
                        if ((240 <=? x) && (x <? 248) && continuation b
                            && continuation c && continuation d)%bool
                        then ((x - 240) * 262144 + (byte_value b - 128) * 4096
                              + (byte_value c - 128) * 64
                              + (byte_value d - 128)) :: code_points r3
                        else 65533 :: code_points r
                    | EmptyString => 65533 :: code_points r
                    end
              | EmptyString => 65533 :: code_points r
              end
        | EmptyString => [65533]
        end
  end.

(** ** The caller: the date string and the AQI scale of the page *)

(** [str(n)] for an integer: its decimal digits, with a sign when negative. *)
Fixpoint decimal_digits (fuel : nat) (n : Z) (acc : string) : string :=
  let acc' := String (digit_char (n mod 10)) acc in
  match fuel with
  | O => acc'
  | S fuel' => if n <? 10 then acc' else decimal_digits fuel' (n / 10) acc'
  end.

Definition str_int (n : Z) : string :=
  if n <? 0 then String "-" (decimal_digits (Z.to_nat (Z.log2 (- n))) (- n) "")
  else decimal_digits (Z.to_nat (Z.log2 n)) n "".

(** [selected_date.strftime("%d-%m-%Y")]: day and month on two digits, the
    year in decimal (four digits from year 1000 on, on every platform). *)
Definition strftime (year month day : Z) : string :=
  (two_digits day ++ "-" ++ two_digits month ++ "-" ++ str_int year)%string.

Definition scale_data : list (string * string * string) :=
  [ ("0-50", "Good", "#00e400");
    ("51-100", "Satisfactory", "#a3c853");
    ("101-200", "Moderate", "#ffff00");
    ("201-300", "Poor", "#ff7e00");
    ("301-400", "Very Poor", "#ff0000");
    ("401-500", "Severe", "#7e0023") ].

(** ** Further notions used to state properties *)

(** [v] lies strictly between two consecutive ranges of the table. *)
Fixpoint in_gap (bps : list breakpoint) (v : Q) : bool :=
  match bps with
  | b :: rest =>
      match rest with
      | b' :: _ =>
          (negb (Qle_bool v (bp_high b)) && negb (Qle_bool (bp_low b') v))
          || in_gap rest v
      | [] => false
      end
  | [] => false
  end.

(** A table on whole numbers in which each range starts one above the end
    of the range before it. *)
Fixpoint unit_steps (bps : list breakpoint) : bool :=
  match bps with
  | b :: rest =>
      Qeq_bool (bp_low b) (inject_Z (Qfloor (bp_low b)))
      && Qeq_bool (bp_high b) (inject_Z (Qfloor (bp_high b)))
      && match rest with
         | b' :: _ => Qeq_bool (bp_low b') (bp_high b + 1)
         | [] => true
         end
      && unit_steps rest
  | [] => true
  end.

(** Two model dictionaries that behave alike for one pollutant: both lack
    its model, or both have one and the two give the same outcome. *)
Definition same_outcome (features : DateFeatures)
  (models1 models2 : dict (DateFeatures -> result pyfloat))
  (pollutant : string) : Prop :=
  match dict_get models1 pollutant, dict_get models2 pollutant with
  | Ok m1, Ok m2 => m1 features = m2 features
  | Raise e1, Raise e2 => e1 = e2
  | _, _ => False
  end.

(** A text without a dash. *)
Fixpoint no_dash (s : text) : bool :=
  match s with
  | [] => true
  | c :: r => negb (is_char "-" c) && no_dash r
  end.

(** The sample models with one more entry, for a substance that is not
    among the pollutants. *)
Definition models_with_spare : dict (DateFeatures -> result pyfloat) :=
  (("Pb", fun _ : DateFeatures => Raise (ModelRaised "unused"))
     :: constant_models sample_outputs).

(** What [predict_aqi] returns for [faulty_outputs]. *)
Definition faulty_outputs_predicted : dict pyfloat :=
  [("PM2.5", Fin (-5)); ("PM10", NaN); ("NO2", Fin 130); ("NH3", Fin 40);
   ("SO2", Fin 4); ("CO", Fin (float_literal 0.4)); ("O3", Fin 30)].

Definition faulty_outputs_sub_indices : dict Z :=
  [("PM2.5", 0); ("PM10", 0); ("NO2", 150); ("NH3", 10); ("SO2", 5);
   ("CO", 20); ("O3", 30)].

(** * Properties *)

(** ** The category ladder *)

Lemma category_of_cases (aqi : Z) :
  (aqi <= 50 /\ category_of aqi = "Good")
  \/ (50 < aqi <= 100 /\ category_of aqi = "Satisfactory")
  \/ (100 < aqi <= 200 /\ category_of aqi = "Moderate")
  \/ (200 < aqi <= 300 /\ category_of aqi = "Poor")
  \/ (300 < aqi <= 400 /\ category_of aqi = "Very Poor")
  \/ (400 < aqi /\ category_of aqi = "Severe").
Proof.
  unfold category_of.
  destruct (Z.leb_spec aqi 50); [tauto|].
  destruct (Z.leb_spec aqi 100); [right; left; split; [lia|reflexivity]|].
  destruct (Z.leb_spec aqi 200);
    [right; right; left; split; [lia|reflexivity]|].
  destruct (Z.leb_spec aqi 300);
    [right; right; right; left; split; [lia|reflexivity]|].
  destruct (Z.leb_spec aqi 400);
    [right; right; right; right; left; split; [lia|reflexivity]|].
  right; right; right; right; right; split; [lia|reflexivity].
Qed.

Ltac ladder aqi :=
  destruct (category_of_cases aqi)
    as [[? ?]|[[? ?]|[[? ?]|[[? ?]|[[? ?]|[? ?]]]]]].

(** C3.  The category ladder is total and cuts the integers (so all
    non-negative AQI values) into exactly six buckets that do not overlap,
    each closed at its upper bound: a value is Good exactly when it is at
    most 50, Satisfactory exactly when in 51..100, Moderate in 101..200, Poor
    in 201..300, Very Poor in 301..400 and Severe exactly when above 400; the
    six names are distinct, and 50 is Good, 51 Satisfactory, 500 Severe. *)
Theorem category_six_buckets :
  (forall aqi : Z,
      (category_of aqi = "Good" <-> aqi <= 50)
      /\ (category_of aqi = "Satisfactory" <-> 50 < aqi <= 100)
      /\ (category_of aqi = "Moderate" <-> 100 < aqi <= 200)
      /\ (category_of aqi = "Poor" <-> 200 < aqi <= 300)
      /\ (category_of aqi = "Very Poor" <-> 300 < aqi <= 400)
      /\ (category_of aqi = "Severe" <-> 400 < aqi))
  /\ NoDup ["Good"; "Satisfactory"; "Moderate"; "Poor"; "Very Poor"; "Severe"]
  /\ (forall aqi : Z,
         In (category_of aqi)
            ["Good"; "Satisfactory"; "Moderate"; "Poor"; "Very Poor"; "Severe"])
  /\ category_of 50 = "Good"
  /\ category_of 51 = "Satisfactory"
  /\ category_of 500 = "Severe".
Proof.
  split; [|split; [|split; [|repeat split]]].
  - intros aqi.
    ladder aqi; match goal with H : category_of _ = _ |- _ => rewrite H end;
      repeat split; intros; try lia; try discriminate; try reflexivity.
  - repeat constructor; simpl; intuition discriminate.
  - intros aqi.
    ladder aqi; match goal with H : category_of _ = _ |- _ => rewrite H end;
      simpl; tauto.
Qed.

(** ** The advisory ladder *)

(** C10.  The advisory lookup uses the six thresholds of the category
    ladder: for every AQI value the bucket named at the head of the text
    returned by [get_health_tip] is the category that [predict_aqi] assigns
    to that value, and two values get the same text exactly when they get
    the same category. *)
Theorem health_tip_agrees_with_category :
  (forall aqi : Z, tip_bucket (get_health_tip aqi) = category_of aqi)
  /\ (forall a b : Z,
         get_health_tip a = get_health_tip b <-> category_of a = category_of b).
Proof.
  assert (bucket : forall aqi, tip_bucket (get_health_tip aqi) = category_of aqi).
  { intros aqi. unfold get_health_tip, category_of.
    repeat match goal with
           | |- context [?x <=? ?y] => destruct (x <=? y)
           end; reflexivity. }
  split; [exact bucket|].
  intros a b. split.
  - intros E. rewrite <- (bucket a), <- (bucket b), E. reflexivity.
  - unfold get_health_tip, category_of.
    repeat match goal with
           | |- context [?x <=? ?y] => destruct (x <=? y)
           end; intros E; try reflexivity; discriminate E.
Qed.

(** ** Rounding *)

Lemma py_round_floor (x : Q) :
  py_round x = Qfloor x \/ py_round x = Qfloor x + 1.
Proof.
  unfold py_round.
  destruct (Qcompare _ _); [destruct (Z.even _)|..]; auto.
Qed.

Lemma py_round_inject (n : Z) : py_round (inject_Z n) = n.
Proof.
  unfold py_round. rewrite Qfloor_Z.
  assert (E : (inject_Z n - inject_Z n ?= 1 # 2)%Q = Lt).
  { rewrite <- Qlt_alt. lra. }
  rewrite E. reflexivity.
Qed.

Lemma py_round_mono (x y : Q) : (x <= y)%Q -> py_round x <= py_round y.
Proof.
  intros Hxy.
  pose proof (Qfloor_resp_le _ _ Hxy) as Hf.
  destruct (Z.eq_dec (Qfloor x) (Qfloor y)) as [E|N].
  - unfold py_round. rewrite E.
    destruct (Qcompare_spec (x - inject_Z (Qfloor y)) (1 # 2)) as [Hx|Hx|Hx];
    destruct (Qcompare_spec (y - inject_Z (Qfloor y)) (1 # 2)) as [Hy|Hy|Hy];
      try lia; try (exfalso; lra);
      destruct (Z.even (Qfloor y)); lia.
  - assert (Qfloor x + 1 <= Qfloor y) by lia.
    destruct (py_round_floor x), (py_round_floor y); lia.
Qed.

Lemma py_round_nearest (x : Q) :
  (inject_Z (py_round x) - (1 # 2) <= x <= inject_Z (py_round x) + (1 # 2))%Q.
Proof.
  pose proof (Qfloor_le x) as Hl. pose proof (Qlt_floor x) as Hu.
  rewrite inject_Z_plus in Hu. change (inject_Z 1) with 1%Q in Hu.
  unfold py_round.
  destruct (Qcompare_spec (x - inject_Z (Qfloor x)) (1 # 2)) as [H|H|H];
    [destruct (Z.even (Qfloor x))| |];
    rewrite ?inject_Z_plus; change (inject_Z 1) with 1%Q; lra.
Qed.


Lemma py_round_ties_even (x : Q) :
  (x - inject_Z (py_round x) == 1 # 2)%Q
  \/ (inject_Z (py_round x) - x == 1 # 2)%Q ->
  Z.even (py_round x) = true.
Proof.
  pose proof (Qfloor_le x) as Hl. pose proof (Qlt_floor x) as Hu.
  rewrite inject_Z_plus in Hu. change (inject_Z 1) with 1%Q in Hu.
  unfold py_round.
  destruct (Qcompare_spec (x - inject_Z (Qfloor x)) (1 # 2)) as [H|H|H].
  - destruct (Z.even (Qfloor x)) eqn:E; intros _; [exact E|].
    rewrite Z.even_add, E. reflexivity.
  - intros [T|T]; exfalso; lra.
  - rewrite inject_Z_plus. change (inject_Z 1) with 1%Q.
    intros [T|T]; exfalso; lra.
Qed.

Lemma py_round_eq (x : Q) (m : Z) : (x == inject_Z m)%Q -> py_round x = m.
Proof.
  intros E. apply Z.le_antisymm.
  - etransitivity; [apply (py_round_mono x (inject_Z m))|].
    + rewrite E. apply Qle_refl.
    + rewrite py_round_inject. reflexivity.
  - etransitivity; [|apply (py_round_mono (inject_Z m) x)].
    + rewrite py_round_inject. reflexivity.
    + rewrite E. apply Qle_refl.
Qed.

(** ** Powers of two *)

Lemma pow2_pos (k : Z) : (0 < 2 ^ k)%Q.
Proof. apply Qpower_0_lt. reflexivity. Qed.

Lemma pow2_add (a b : Z) : (2 ^ (a + b) == 2 ^ a * 2 ^ b)%Q.
Proof. apply Qpower_plus. discriminate. Qed.

Lemma pow2_le (a b : Z) : a <= b -> (2 ^ a <= 2 ^ b)%Q.
Proof. intros H. apply Qpower_le_compat_l; [exact H|discriminate]. Qed.

Lemma pow2_int (k : Z) : 0 <= k -> (2 ^ k == inject_Z (2 ^ k))%Q.
Proof. intros H. symmetry. apply (Zpower_Qpower 2 k H). Qed.

Lemma pow2_div (a b : Z) : (2 ^ a / 2 ^ b == 2 ^ (a - b))%Q.
Proof.
  unfold Z.sub. rewrite pow2_add, Qpower_opp. reflexivity.
Qed.

(** ** The binary logarithm *)

Lemma Q_as_fraction (q : Q) :
  (q == inject_Z (Qnum q) / inject_Z (Zpos (Qden q)))%Q.
Proof.
  destruct q as [n d]. simpl. unfold Qeq, Qdiv, Qmult, Qinv, inject_Z. simpl.
  lia.
Qed.

Lemma ilog2_spec (q : Q) :
  (0 < q)%Q -> (2 ^ ilog2 q <= q < 2 ^ (ilog2 q + 1))%Q.
Proof.
  intros Hq.
  set (n := Qnum q). set (d := Zpos (Qden q)).
  assert (Hn : 0 < n) by (unfold n; destruct q as [a b]; unfold Qlt in Hq; simpl in *; lia).
  assert (Hd : 0 < d) by (unfold d; lia).
  pose proof (Z.log2_spec n Hn) as [Ln Un].
  pose proof (Z.log2_spec d Hd) as [Ld Ud].
  pose proof (Z.log2_nonneg n) as Nn. pose proof (Z.log2_nonneg d) as Nd.
  assert (Eq : (q == inject_Z n / inject_Z d)%Q) by apply Q_as_fraction.
  assert (Dpos : (0 < inject_Z d)%Q)
    by (change 0%Q with (inject_Z 0); rewrite <- Zlt_Qlt; exact Hd).
  set (k := Z.log2 n - Z.log2 d).
  assert (Hup : (q < 2 ^ (k + 1))%Q).
  { rewrite Eq. apply Qlt_shift_div_r; [exact Dpos|].
    replace (k + 1) with ((Z.log2 n + 1) - Z.log2 d) by (unfold k; lia).
    rewrite <- pow2_div.
    assert (HA : (inject_Z n < 2 ^ (Z.log2 n + 1))%Q).
    { rewrite pow2_int by lia. rewrite <- Zlt_Qlt.
      replace (Z.log2 n + 1) with (Z.succ (Z.log2 n)) by lia. exact Un. }
    assert (HB : (2 ^ Z.log2 d <= inject_Z d)%Q).
    { rewrite pow2_int by lia. rewrite <- Zle_Qle. exact Ld. }
    pose proof (pow2_pos (Z.log2 d)) as PB.
    pose proof (pow2_pos (Z.log2 n + 1)) as PA.
    set (A := (2 ^ (Z.log2 n + 1))%Q) in *. set (B := (2 ^ Z.log2 d)%Q) in *.
    setoid_replace (A / B * inject_Z d)%Q with (A * inject_Z d / B)%Q
      by (field; lra).
    apply Qlt_le_trans with A; [exact HA|].
    apply Qle_shift_div_l; [exact PB|]. nra. }
  assert (Hlow : (2 ^ (k - 1) <= q)%Q).
  { rewrite Eq. apply Qle_shift_div_l; [exact Dpos|].
    replace (k - 1) with (Z.log2 n - (Z.log2 d + 1)) by (unfold k; lia).
    rewrite <- pow2_div.
    assert (HA : (2 ^ Z.log2 n <= inject_Z n)%Q).
    { rewrite pow2_int by lia. rewrite <- Zle_Qle. exact Ln. }
    assert (HB : (inject_Z d <= 2 ^ (Z.log2 d + 1))%Q).
    { rewrite pow2_int by lia. rewrite <- Zle_Qle.
      replace (Z.log2 d + 1) with (Z.succ (Z.log2 d)) by lia. lia. }
    pose proof (pow2_pos (Z.log2 d + 1)) as PB.
    pose proof (pow2_pos (Z.log2 n)) as PA.
    set (A := (2 ^ Z.log2 n)%Q) in *. set (B := (2 ^ (Z.log2 d + 1))%Q) in *.
    setoid_replace (A / B * inject_Z d)%Q with (A * inject_Z d / B)%Q
      by (field; lra).
    apply Qle_trans with A; [|exact HA].
    apply Qle_shift_div_r; [exact PB|]. nra. }
  unfold ilog2. fold n d k.
  destruct (Qle_bool (2 ^ k) q) eqn:E.
  - apply Qle_bool_iff in E. split; assumption.
  - replace (k - 1 + 1) with k by lia. split; [exact Hlow|].
    apply Qnot_le_lt. intros L. apply Qle_bool_iff in L. congruence.
Qed.

Lemma ilog2_mono (x y : Q) : (0 < x)%Q -> (x <= y)%Q -> ilog2 x <= ilog2 y.
Proof.
  intros Hx Hxy.
  destruct (ilog2_spec x Hx) as [Lx _].
  destruct (ilog2_spec y) as [_ Uy]; [lra|].
  destruct (Z_le_gt_dec (ilog2 x) (ilog2 y)) as [L|G]; [exact L|exfalso].
  pose proof (pow2_le (ilog2 y + 1) (ilog2 x) ltac:(lia)). lra.
Qed.

(** ** Rounding to binary64 *)

Lemma Qabs_nonneg_eq (q : Q) : (0 <= q)%Q -> Qabs q = q.
Proof.
  destruct q as [n d]. unfold Qle. simpl. intros H.
  f_equal. apply Z.abs_eq. lia.
Qed.

Lemma inject_Z_le (a b : Z) : a <= b -> (inject_Z a <= inject_Z b)%Q.
Proof. intros H. rewrite <- Zle_Qle. exact H. Qed.

Lemma scaled_le (x y : Q) (e : Z) :
  (x <= y)%Q -> (x / 2 ^ e <= y / 2 ^ e)%Q.
Proof.
  intros H. pose proof (pow2_pos e) as P.
  apply Qle_shift_div_l; [exact P|].
  setoid_replace (x / 2 ^ e * 2 ^ e)%Q with x by (field; lra). exact H.
Qed.

Lemma rnd_same_exp (x y : Q) :
  ulp_exp x = ulp_exp y -> (x <= y)%Q -> (rnd x <= rnd y)%Q.
Proof.
  intros E H. unfold rnd. rewrite E.
  pose proof (pow2_pos (ulp_exp y)) as P.
  apply Qmult_le_compat_r; [|lra].
  apply inject_Z_le, py_round_mono, scaled_le, H.
Qed.

Lemma rnd_mono_pos (x y : Q) :
  (0 < x)%Q -> (x <= y)%Q -> (rnd x <= rnd y)%Q.
Proof.
  intros Hx Hxy.
  assert (Hy : (0 < y)%Q) by lra.
  pose proof (ilog2_mono x y Hx Hxy) as Hlog.
  assert (Ex : ulp_exp x = Z.max (ilog2 x - 52) (-1074))
    by (unfold ulp_exp; rewrite Qabs_nonneg_eq by lra; reflexivity).
  assert (Ey : ulp_exp y = Z.max (ilog2 y - 52) (-1074))
    by (unfold ulp_exp; rewrite Qabs_nonneg_eq by lra; reflexivity).
  destruct (Z.eq_dec (ulp_exp x) (ulp_exp y)) as [E|N];
    [apply rnd_same_exp; assumption|].
  assert (Hlt : ulp_exp x < ulp_exp y) by lia.
  assert (Ey' : ulp_exp y = ilog2 y - 52) by lia.
  destruct (ilog2_spec x Hx) as [_ Ux].
  destruct (ilog2_spec y Hy) as [Ly _].
  set (ex := ulp_exp x) in *. set (ey := ulp_exp y) in *.
  pose proof (pow2_pos ex) as Px. pose proof (pow2_pos ey) as Py.
  apply Qle_trans with (2 ^ (ey + 52))%Q.
  - (* rnd x does not pass the next power of two *)
    unfold rnd. fold ex.
    assert (B : (2 ^ (ey + 52) == inject_Z (2 ^ (ey + 52 - ex)) * 2 ^ ex)%Q).
    { rewrite <- pow2_int by lia. rewrite <- pow2_add.
      replace (ey + 52 - ex + ex) with (ey + 52) by lia. reflexivity. }
    rewrite B. apply Qmult_le_compat_r; [|lra].
    apply inject_Z_le.
    rewrite <- (py_round_inject (2 ^ (ey + 52 - ex))).
    apply py_round_mono.
    rewrite <- pow2_int by lia. rewrite <- pow2_div.
    apply scaled_le.
    pose proof (pow2_le (ilog2 x + 1) (ey + 52) ltac:(lia)). lra.
  - (* rnd y stays at or above the power of two below y *)
    unfold rnd. fold ey.
    assert (B : (2 ^ (ey + 52) == inject_Z (2 ^ 52) * 2 ^ ey)%Q).
    { rewrite <- pow2_int by lia. rewrite <- pow2_add.
      replace (52 + ey) with (ey + 52) by lia. reflexivity. }
    rewrite B. apply Qmult_le_compat_r; [|lra].
    apply inject_Z_le.
    rewrite <- (py_round_inject (2 ^ 52)) at 1.
    apply py_round_mono.
    rewrite <- pow2_int by lia.
    setoid_replace (2 ^ 52)%Q with (2 ^ (ey + 52) / 2 ^ ey)%Q
      by (rewrite pow2_div; replace (ey + 52 - ey) with 52 by lia; reflexivity).
    apply scaled_le.
    replace (ey + 52) with (ilog2 y) by lia. exact Ly.
Qed.

Lemma rnd_zero (q : Q) : (q == 0)%Q -> (rnd q == 0)%Q.
Proof.
  intros H. unfold rnd.
  assert (E : py_round (q / 2 ^ ulp_exp q) = 0).
  { pose proof (pow2_pos (ulp_exp q)) as P. apply Z.le_antisymm.
    - rewrite <- (py_round_inject 0). apply py_round_mono.
      apply Qle_shift_div_r; [exact P|]. change (inject_Z 0) with 0%Q. lra.
    - rewrite <- (py_round_inject 0) at 1. apply py_round_mono.
      apply Qle_shift_div_l; [exact P|]. change (inject_Z 0) with 0%Q. lra. }
  rewrite E. apply Qmult_0_l.
Qed.

Lemma rnd_nonneg (q : Q) : (0 <= q)%Q -> (0 <= rnd q)%Q.
Proof.
  intros H. unfold rnd. pose proof (pow2_pos (ulp_exp q)) as P.
  apply Qmult_le_0_compat; [|lra].
  change 0%Q with (inject_Z 0). apply inject_Z_le.
  rewrite <- (py_round_inject 0) at 1. apply py_round_mono.
  apply Qle_shift_div_l; [exact P|]. rewrite Qmult_0_l. exact H.
Qed.

(** Rounding is monotone on the non-negative numbers. *)
Lemma rnd_mono (x y : Q) : (0 <= x)%Q -> (x <= y)%Q -> (rnd x <= rnd y)%Q.
Proof.
  intros Hx Hxy. destruct (Qlt_le_dec 0 x) as [P|Z].
  - apply rnd_mono_pos; assumption.
  - rewrite (rnd_zero x) by lra. apply rnd_nonneg. lra.
Qed.

(** An integer of at most 53 bits is a binary64 number. *)
Lemma rnd_integer (n : Z) : 0 <= n < 2 ^ 53 -> (rnd (inject_Z n) == inject_Z n)%Q.
Proof.
  intros Hn. destruct (Z.eq_dec n 0) as [->|N]; [apply rnd_zero; reflexivity|].
  assert (Hpos : (0 < inject_Z n)%Q)
    by (change 0%Q with (inject_Z 0); rewrite <- Zlt_Qlt; lia).
  destruct (ilog2_spec _ Hpos) as [L _].
  assert (Hlog : ilog2 (inject_Z n) <= 52).
  { destruct (Z_le_gt_dec (ilog2 (inject_Z n)) 52) as [H|H]; [exact H|exfalso].
    pose proof (pow2_le 53 (ilog2 (inject_Z n)) ltac:(lia)) as P.
    rewrite (pow2_int 53) in P by lia.
    assert ((inject_Z (2 ^ 53) <= inject_Z n)%Q) by lra.
    rewrite <- Zle_Qle in H0. lia. }
  unfold rnd.
  assert (E : ulp_exp (inject_Z n) <= 0)
    by (unfold ulp_exp; rewrite Qabs_nonneg_eq by lra; lia).
  set (e := ulp_exp (inject_Z n)) in *.
  assert (S : (inject_Z n / 2 ^ e == inject_Z (n * 2 ^ (- e)))%Q).
  { rewrite inject_Z_mult, <- pow2_int by lia. rewrite Qpower_opp.
    reflexivity. }
  assert (R : py_round (inject_Z n / 2 ^ e) = n * 2 ^ (- e))
    by (apply py_round_eq, S).
  rewrite R, inject_Z_mult, <- pow2_int by lia.
  rewrite <- Qmult_assoc, <- pow2_add.
  replace (- e + e) with 0 by lia. change (2 ^ 0)%Q with 1%Q. ring.
Qed.

(** What [rnd] gives is a multiple of the last place, at most half a last
    place away from the exact result. *)
Lemma rnd_nearest (q : Q) :
  (exists m : Z, rnd q = inject_Z m * 2 ^ ulp_exp q)%Q
  /\ (rnd q - 2 ^ ulp_exp q / 2 <= q <= rnd q + 2 ^ ulp_exp q / 2)%Q.
Proof.
  split; [eexists; reflexivity|].
  unfold rnd. pose proof (pow2_pos (ulp_exp q)) as U.
  set (u := (2 ^ ulp_exp q)%Q) in *.
  pose proof (py_round_nearest (q / u)) as [L H].
  set (i := inject_Z (py_round (q / u))) in *.
  assert (E : (q == q / u * u)%Q) by (field; lra).
  split.
  - apply Qle_trans with ((i - (1 # 2)) * u)%Q; [apply Qle_lteq; right; field|].
    apply Qle_trans with (q / u * u)%Q; [apply Qmult_le_compat_r; lra|].
    apply Qle_lteq. right. symmetry. exact E.
  - apply Qle_trans with ((i + (1 # 2)) * u)%Q; [|apply Qle_lteq; right; field].
    apply Qle_trans with (q / u * u)%Q; [|apply Qmult_le_compat_r; lra].
    apply Qle_lteq. right. exact E.
Qed.

(** ** The loop over one table *)

Lemma Qle_bool_false (x y : Q) : Qle_bool x y = false <-> (y < x)%Q.
Proof.
  split; intros H.
  - apply Qnot_le_lt. intros L. apply Qle_bool_iff in L. congruence.
  - destruct (Qle_bool x y) eqn:E; [|reflexivity].
    apply Qle_bool_iff in E. lra.
Qed.

Lemma inside_Fin (b : breakpoint) (v : Q) :
  inside b (Fin v) = true <-> (bp_low b <= v <= bp_high b)%Q.
Proof.
  unfold inside, between. rewrite andb_true_iff, !Qle_bool_iff. tauto.
Qed.

Lemma inside_not_finite (b : breakpoint) (value : pyfloat) :
  (forall v, value <> Fin v) -> inside b value = false.
Proof.
  intros H. destruct value; [destruct (H q); reflexivity|reflexivity..].
Qed.

Lemma scan_hit (b : breakpoint) (rest : list breakpoint) (v : Q) :
  inside b (Fin v) = true -> scan (b :: rest) (Fin v) = interpolate b v.
Proof.
  destruct b as [[[low high] il] ih]. unfold inside. simpl.
  intros ->. reflexivity.
Qed.

Lemma scan_miss (b : breakpoint) (rest : list breakpoint) (value : pyfloat) :
  inside b value = false -> scan (b :: rest) value = scan rest value.
Proof.
  destruct b as [[[low high] il] ih]. unfold inside.
  destruct value; simpl; [intros ->|..]; reflexivity.
Qed.

Lemma scan_outside (bps : list breakpoint) (value : pyfloat) :
  (forall b, In b bps -> inside b value = false) -> scan bps value = 0.
Proof.
  induction bps as [|b rest IH]; intros H; [reflexivity|].
  rewrite scan_miss by (apply H; left; reflexivity).
  apply IH. intros b' Hb'. apply H. right. exact Hb'.
Qed.

(** ** Ordered tables *)

Lemma ordered_tail (b : breakpoint) (rest : list breakpoint) :
  ordered (b :: rest) = true -> ordered rest = true.
Proof.
  simpl. rewrite !andb_true_iff. tauto.
Qed.

Lemma ordered_head (b : breakpoint) (rest : list breakpoint) :
  ordered (b :: rest) = true ->
  (bp_low b < bp_high b)%Q /\ bp_index_low b <= bp_index_high b.
Proof.
  simpl. rewrite !andb_true_iff, negb_true_iff, Qle_bool_false, Z.leb_le.
  tauto.
Qed.

Lemma ordered_proper (bps : list breakpoint) (b : breakpoint) :
  ordered bps = true -> In b bps ->
  (bp_low b < bp_high b)%Q /\ bp_index_low b <= bp_index_high b.
Proof.
  induction bps as [|b0 rest IH]; intros Hord Hin; [destruct Hin|].
  destruct Hin as [->|Hin].
  - eapply ordered_head; eassumption.
  - apply IH; [eapply ordered_tail; eassumption|assumption].
Qed.

Lemma ordered_later (rest : list breakpoint) :
  forall b b' : breakpoint,
    ordered (b :: rest) = true -> In b' rest ->
    (bp_high b < bp_low b')%Q /\ bp_index_high b <= bp_index_low b'.
Proof.
  induction rest as [|b1 rest IH]; intros b b' Hord Hin; [destruct Hin|].
  pose proof (ordered_tail _ _ Hord) as Htail.
  pose proof (ordered_head _ _ Htail) as [Hp1 Hp2].
  assert (Hstep : (bp_high b < bp_low b1)%Q
                  /\ bp_index_high b <= bp_index_low b1).
  { simpl in Hord.
    rewrite !andb_true_iff, !negb_true_iff, !Qle_bool_false, !Z.leb_le in Hord.
    tauto. }
  destruct Hstep as [Hs1 Hs2].
  destruct Hin as [->|Hin]; [split; assumption|].
  destruct (IH b1 b' Htail Hin) as [H1 H2].
  split; [lra|lia].
Qed.

Lemma scan_ordered (bps : list breakpoint) (b : breakpoint) (v : Q) :
  ordered bps = true -> In b bps -> inside b (Fin v) = true ->
  scan bps (Fin v) = interpolate b v.
Proof.
  induction bps as [|b0 rest IH]; intros Hord Hin Hv; [destruct Hin|].
  destruct Hin as [->|Hin]; [apply scan_hit; exact Hv|].
  destruct (ordered_later _ _ _ Hord Hin) as [Hlt _].
  apply inside_Fin in Hv as Hv'.
  rewrite scan_miss.
  - apply IH; [eapply ordered_tail; eassumption|assumption..].
  - destruct (inside b0 (Fin v)) eqn:E; [|reflexivity].
    apply inside_Fin in E. lra.
Qed.

(** ** The seven tables *)

Lemma dict_get_In {V : Type} (d : dict V) (k : string) (v : V) :
  dict_get d k = Ok v -> In (k, v) d.
Proof.
  induction d as [|[k' v'] d IH]; simpl; [discriminate|].
  destruct (String.eqb_spec k k') as [->|_].
  - intros [= ->]. left. reflexivity.
  - intros H. right. apply IH, H.
Qed.

Ltac each_table H :=
  apply dict_get_In in H; unfold breakpoints in H; simpl In in H;
  repeat (destruct H as [H|H]; [injection H as <- <-|]); [..|destruct H].

Lemma pollutant_has_table (pollutant : string) :
  In pollutant pollutants <->
  exists bps, dict_get breakpoints pollutant = Ok bps.
Proof.
  split.
  - intros H. unfold pollutants in H. simpl in H.
    repeat (destruct H as [<-|H]; [eexists; reflexivity|]). destruct H.
  - intros [bps H]. each_table H; simpl; tauto.
Qed.

Lemma tables_ordered (pollutant : string) (bps : list breakpoint) :
  dict_get breakpoints pollutant = Ok bps -> ordered bps = true.
Proof.
  intros H. each_table H; vm_compute; reflexivity.
Qed.

Lemma calculate_sub_index_scan (pollutant : string) (bps : list breakpoint)
  (value : pyfloat) :
  dict_get breakpoints pollutant = Ok bps ->
  calculate_sub_index pollutant value = Ok (scan bps value).
Proof.
  intros H. unfold calculate_sub_index. rewrite H. reflexivity.
Qed.

(** ** Interpolation inside one range *)

Lemma interpolate_line (b : breakpoint) (v : Q) :
  interpolate b v = py_round (line_value b v).
Proof.
  destruct b as [[[l h] il] ih]. reflexivity.
Qed.

Lemma bp_eta (b : breakpoint) :
  b = (bp_low b, bp_high b, bp_index_low b, bp_index_high b).
Proof.
  destruct b as [[[l h] il] ih]. reflexivity.
Qed.

Section Interpolation.

Variables (low high : Q) (index_low index_high : Z).
Hypothesis proper : (low < high)%Q.
Hypothesis rising : index_low <= index_high.
Hypothesis small : 0 <= index_low < 2 ^ 53.

Lemma slope_nonneg : (0 <= slope low high index_low index_high)%Q.
Proof.
  unfold slope, fdiv. apply rnd_nonneg.
  assert (D : (0 <= fsub high low)%Q) by (apply rnd_nonneg; lra).
  assert (N : (0 <= inject_Z (index_high - index_low))%Q)
    by (change 0%Q with (inject_Z 0); rewrite <- Zle_Qle; lia).
  unfold Qdiv. apply Qmult_le_0_compat; [exact N|].
  apply Qinv_le_0_compat, D.
Qed.

Lemma line_value_mono (v1 v2 : Q) :
  (low <= v1)%Q -> (v1 <= v2)%Q ->
  (line_value (low, high, index_low, index_high) v1
   <= line_value (low, high, index_low, index_high) v2)%Q.
Proof.
  intros H1 H12. unfold line_value, fadd, fmul.
  pose proof slope_nonneg as K.
  set (k := slope low high index_low index_high) in *.
  assert (S1 : (0 <= fsub v1 low)%Q) by (apply rnd_nonneg; lra).
  assert (S12 : (fsub v1 low <= fsub v2 low)%Q)
    by (unfold fsub; apply rnd_mono; lra).
  assert (P1 : (0 <= rnd (k * fsub v1 low))%Q)
    by (apply rnd_nonneg, Qmult_le_0_compat; assumption).
  assert (P12 : (rnd (k * fsub v1 low) <= rnd (k * fsub v2 low))%Q).
  { apply rnd_mono; [apply Qmult_le_0_compat; assumption|]. nra. }
  assert (I : (0 <= inject_Z index_low)%Q)
    by (change 0%Q with (inject_Z 0); rewrite <- Zle_Qle; lia).
  apply rnd_mono; lra.
Qed.

Lemma line_value_low (v : Q) :
  (low <= v)%Q ->
  (inject_Z index_low <= line_value (low, high, index_low, index_high) v)%Q.
Proof.
  intros H. unfold line_value, fadd, fmul.
  pose proof slope_nonneg as K.
  set (k := slope low high index_low index_high) in *.
  assert (S1 : (0 <= fsub v low)%Q) by (apply rnd_nonneg; lra).
  assert (P1 : (0 <= rnd (k * fsub v low))%Q)
    by (apply rnd_nonneg, Qmult_le_0_compat; assumption).
  assert (I : (0 <= inject_Z index_low)%Q)
    by (change 0%Q with (inject_Z 0); rewrite <- Zle_Qle; lia).
  rewrite <- (rnd_integer index_low small) at 1.
  apply rnd_mono; lra.
Qed.

Lemma interpolate_mono (v1 v2 : Q) :
  (low <= v1)%Q -> (v1 <= v2)%Q ->
  interpolate (low, high, index_low, index_high) v1
  <= interpolate (low, high, index_low, index_high) v2.
Proof.
  intros H1 H12. rewrite !interpolate_line.
  apply py_round_mono, line_value_mono; assumption.
Qed.

Lemma interpolate_bounds (v : Q) :
  interpolate (low, high, index_low, index_high) high = index_high ->
  (low <= v <= high)%Q ->
  index_low <= interpolate (low, high, index_low, index_high) v
  <= index_high.
Proof.
  intros Hend [Hl Hh]. split.
  - rewrite interpolate_line.
    rewrite <- (py_round_inject index_low) at 1.
    apply py_round_mono, line_value_low, Hl.
  - apply Z.le_trans
      with (interpolate (low, high, index_low, index_high) high);
      [apply interpolate_mono; assumption|].
    rewrite Hend. reflexivity.
Qed.

End Interpolation.

(** ** The ends of the ranges *)

Lemma ends_exact_In (bps : list breakpoint) (b : breakpoint) :
  ends_exact bps = true -> In b bps ->
  interpolate b (bp_low b) = bp_index_low b
  /\ interpolate b (bp_high b) = bp_index_high b
  /\ 0 <= bp_index_low b /\ bp_index_high b <= 500.
Proof.
  unfold ends_exact. rewrite forallb_forall. intros H Hb.
  specialize (H b Hb).
  rewrite !andb_true_iff, !Z.eqb_eq, !Z.leb_le in H. tauto.
Qed.

Lemma tables_ends_exact (pollutant : string) (bps : list breakpoint) :
  dict_get breakpoints pollutant = Ok bps -> ends_exact bps = true.
Proof.
  intros H. each_table H; vm_compute; reflexivity.
Qed.

(** Inside a range of an ordered table with exact ends the interpolation
    is monotone and stays inside the index interval of the range. *)
Lemma range_mono (bps : list breakpoint) (b : breakpoint) (v1 v2 : Q) :
  ordered bps = true -> ends_exact bps = true -> In b bps ->
  (bp_low b <= v1)%Q -> (v1 <= v2)%Q ->
  interpolate b v1 <= interpolate b v2.
Proof.
  intros Hord Hends Hb H1 H12.
  destruct (ordered_proper _ _ Hord Hb) as [P R].
  destruct (ends_exact_In _ _ Hends Hb) as (_ & _ & L & U).
  rewrite (bp_eta b). apply interpolate_mono; try assumption.
  split; [exact L|]. apply Z.le_lt_trans with 500; [lia|reflexivity].
Qed.

Lemma range_bounds (bps : list breakpoint) (b : breakpoint) (v : Q) :
  ordered bps = true -> ends_exact bps = true -> In b bps ->
  (bp_low b <= v <= bp_high b)%Q ->
  bp_index_low b <= interpolate b v <= bp_index_high b.
Proof.
  intros Hord Hends Hb Hv.
  destruct (ordered_proper _ _ Hord Hb) as [P R].
  destruct (ends_exact_In _ _ Hends Hb) as (_ & E & L & U).
  destruct b as [[[l h] il] ih]. cbn [bp_low bp_high bp_index_low bp_index_high] in *.
  apply interpolate_bounds; try assumption.
  split; [exact L|]. apply Z.le_lt_trans with 500; [lia|reflexivity].
Qed.

(** ** [calculate_sub_index] *)

(** C2.  For every pollutant and every concentration inside a range
    [low, high] of the pollutant's table, both ends included,
    [calculate_sub_index] returns
    round(((indexHigh - indexLow) / (high - low)) * (concentration - low)
    + indexLow) computed with the four numbers of that range, each
    operation being the one of binary64; the rounding gives an integer
    at most one half away from that value, the even one when the value is
    half-way between two integers. *)
Theorem sub_index_is_interpolation :
  forall (pollutant : string) (bps : list breakpoint)
         (low high : Q) (index_low index_high : Z) (concentration : Q),
    dict_get breakpoints pollutant = Ok bps ->
    In (low, high, index_low, index_high) bps ->
    (low <= concentration <= high)%Q ->
    exists (value : Q) (i : Z),
      value = fadd (fmul (fdiv (inject_Z (index_high - index_low))
                               (fsub high low))
                         (fsub concentration low))
                   (inject_Z index_low)
      /\ calculate_sub_index pollutant (Fin concentration) = Ok i
      /\ i = py_round value
      /\ (inject_Z i - (1 # 2) <= value <= inject_Z i + (1 # 2))%Q
      /\ ((value - inject_Z i == 1 # 2)%Q \/ (inject_Z i - value == 1 # 2)%Q ->
          Z.even i = true).
Proof.
  intros pollutant bps low high il ih c Htab Hin Hc.
  eexists. eexists. split; [reflexivity|]. split; [|split; [reflexivity|]].
  - rewrite (calculate_sub_index_scan _ _ _ Htab). f_equal.
    rewrite (scan_ordered bps (low, high, il, ih) c).
    + reflexivity.
    + eapply tables_ordered; eassumption.
    + exact Hin.
    + apply inside_Fin. exact Hc.
  - split; [apply py_round_nearest|apply py_round_ties_even].
Qed.

Lemma sub_index_is_interpolation_witness :
  calculate_sub_index "PM2.5" (Fin (float_literal 3.3)) = Ok 6
  /\ exists (value : Q) (i : Z),
      value = fadd (fmul (fdiv (inject_Z (50 - 0)) (fsub 30 0))
                         (fsub (float_literal 3.3) 0))
                   (inject_Z 0)
      /\ calculate_sub_index "PM2.5" (Fin (float_literal 3.3)) = Ok i
      /\ i = py_round value
      /\ (inject_Z i - (1 # 2) <= value <= inject_Z i + (1 # 2))%Q
      /\ ((value - inject_Z i == 1 # 2)%Q \/ (inject_Z i - value == 1 # 2)%Q ->
          Z.even i = true).
Proof.
  split; [vm_compute; reflexivity|].
  apply (sub_index_is_interpolation
           "PM2.5" _ 0 30 0 50 (float_literal 3.3) eq_refl).
  - left. reflexivity.
  - split; apply Qle_bool_iff; vm_compute; reflexivity.
Defined.

Lemma calculate_sub_index_outside (pollutant : string)
  (bps : list breakpoint) (value : pyfloat) :
  dict_get breakpoints pollutant = Ok bps ->
  (forall b, In b bps -> inside b value = false) ->
  calculate_sub_index pollutant value = Ok 0.
Proof.
  intros Htab Hout. unfold calculate_sub_index. rewrite Htab.
  cbn [bind]. rewrite scan_outside by exact Hout. reflexivity.
Qed.

(** C6.  For every pollutant, a concentration that lies inside none of the
    ranges of the pollutant's table makes [calculate_sub_index] return 0. *)
Theorem outside_every_range_gives_zero :
  forall (pollutant : string) (bps : list breakpoint) (value : pyfloat),
    dict_get breakpoints pollutant = Ok bps ->
    (forall b, In b bps -> inside b value = false) ->
    calculate_sub_index pollutant value = Ok 0.
Proof.
  intros pollutant bps value Htab Hout.
  rewrite (calculate_sub_index_scan _ _ _ Htab). f_equal.
  apply scan_outside, Hout.
Qed.

Lemma table_max_upper (bps : list breakpoint) (b : breakpoint) :
  In b bps -> (bp_high b <= table_max bps)%Q.
Proof.
  induction bps as [|b0 rest IH]; intros Hin; [destruct Hin|].
  simpl. destruct (Qle_bool (table_max rest) (bp_high b0)) eqn:E.
  - apply Qle_bool_iff in E. destruct Hin as [->|Hin]; [lra|].
    specialize (IH Hin). lra.
  - apply Qle_bool_false in E. destruct Hin as [->|Hin]; [lra|].
    exact (IH Hin).
Qed.

Lemma lows_nonnegative (pollutant : string) (bps : list breakpoint)
  (b : breakpoint) :
  dict_get breakpoints pollutant = Ok bps -> In b bps -> (0 <= bp_low b)%Q.
Proof.
  intros Htab Hin.
  assert (Hall : forallb (fun b => Qle_bool 0 (bp_low b)) bps = true)
    by (each_table Htab; vm_compute; reflexivity).
  rewrite forallb_forall in Hall. apply Qle_bool_iff, Hall, Hin.
Qed.

(** A negative concentration and one above the largest tabulated value are
    outside every range; so is a value that is not finite. *)
Lemma negative_gives_zero (pollutant : string) (bps : list breakpoint)
  (v : Q) :
  dict_get breakpoints pollutant = Ok bps -> (v < 0)%Q ->
  calculate_sub_index pollutant (Fin v) = Ok 0.
Proof.
  intros Htab Hv. apply (calculate_sub_index_outside _ _ _ Htab).
  intros b Hb. pose proof (lows_nonnegative _ _ _ Htab Hb) as Hl.
  destruct (inside b (Fin v)) eqn:E; [|reflexivity].
  apply inside_Fin in E. lra.
Qed.

Lemma above_max_gives_zero (pollutant : string) (bps : list breakpoint)
  (v : Q) :
  dict_get breakpoints pollutant = Ok bps -> (table_max bps < v)%Q ->
  calculate_sub_index pollutant (Fin v) = Ok 0.
Proof.
  intros Htab Hv. apply (calculate_sub_index_outside _ _ _ Htab).
  intros b Hb. pose proof (table_max_upper _ _ Hb) as Hh.
  destruct (inside b (Fin v)) eqn:E; [|reflexivity].
  apply inside_Fin in E. lra.
Qed.

Lemma not_finite_gives_zero (pollutant : string) (bps : list breakpoint)
  (value : pyfloat) :
  dict_get breakpoints pollutant = Ok bps -> (forall v, value <> Fin v) ->
  calculate_sub_index pollutant value = Ok 0.
Proof.
  intros Htab Hv. apply (calculate_sub_index_outside _ _ _ Htab).
  intros b _. apply inside_not_finite, Hv.
Qed.

(** The bounds of the CO table are the binary64 numbers that the literals
    of the source denote: the float 10.1 is the lower end of the fourth
    range, not a value of the gap below it. *)
Lemma co_literal_is_inside :
  inside (bp (float_literal 10.1) (float_literal 17.0) 201 300)
         (Fin (float_literal 10.1)) = true
  /\ calculate_sub_index "CO" (Fin (float_literal 10.1)) = Ok 201.
Proof.
  split; vm_compute; reflexivity.
Qed.

Lemma outside_every_range_gives_zero_witness :
  calculate_sub_index "PM2.5" (Fin (-3)) = Ok 0.
Proof.
  apply (outside_every_range_gives_zero "PM2.5" _ (Fin (-3)) eq_refl).
  intros b Hb. simpl in Hb.
  repeat (destruct Hb as [<-|Hb]; [reflexivity|]). destruct Hb.
Defined.

(** C9.  For every pollutant and every range of its table,
    [calculate_sub_index] at the upper end of the range returns the
    indexHigh of that range; at the largest tabulated concentration of the
    pollutant it returns 500. *)
Theorem upper_boundary_gives_index_high :
  forall (pollutant : string) (bps : list breakpoint),
    dict_get breakpoints pollutant = Ok bps ->
    (forall b, In b bps ->
               calculate_sub_index pollutant (Fin (bp_high b))
               = Ok (bp_index_high b))
    /\ calculate_sub_index pollutant (Fin (table_max bps)) = Ok 500.
Proof.
  intros pollutant bps Htab. split.
  - intros b Hb.
    pose proof (tables_ordered _ _ Htab) as Hord.
    destruct (ordered_proper _ _ Hord Hb) as [Hp Hr].
    rewrite (calculate_sub_index_scan _ _ _ Htab). f_equal.
    rewrite (scan_ordered bps b (bp_high b) Hord Hb)
      by (apply inside_Fin; lra).
    exact (proj1 (proj2 (ends_exact_In _ _ (tables_ends_exact _ _ Htab) Hb))).
  - each_table Htab; vm_compute; reflexivity.
Qed.

Lemma upper_boundary_gives_index_high_witness :
  (forall b, In b [bp 0 30 0 50; bp 31 60 51 100; bp 61 90 101 200;
                   bp 91 120 201 300; bp 121 250 301 400; bp 251 500 401 500] ->
             calculate_sub_index "PM2.5" (Fin (bp_high b))
             = Ok (bp_index_high b))
  /\ calculate_sub_index "PM2.5" (Fin 500) = Ok 500.
Proof.
  exact (upper_boundary_gives_index_high "PM2.5" _ eq_refl).
Defined.

(** ** How the ranges of a table lie *)

Lemma ordered_compare (bps : list breakpoint) (b1 b2 : breakpoint) :
  ordered bps = true -> In b1 bps -> In b2 bps ->
  b1 = b2
  \/ ((bp_high b1 < bp_low b2)%Q /\ bp_index_high b1 <= bp_index_low b2)
  \/ ((bp_high b2 < bp_low b1)%Q /\ bp_index_high b2 <= bp_index_low b1).
Proof.
  induction bps as [|b0 rest IH]; intros Hord H1 H2; [destruct H1|].
  destruct H1 as [->|H1], H2 as [->|H2].
  - left. reflexivity.
  - right. left. eapply ordered_later; eassumption.
  - right. right. eapply ordered_later; eassumption.
  - apply IH; [eapply ordered_tail; eassumption|assumption..].
Qed.

(** No concentration lies inside two ranges of one table. *)
Lemma ranges_do_not_overlap (pollutant : string) (bps : list breakpoint)
  (b1 b2 : breakpoint) (value : pyfloat) :
  dict_get breakpoints pollutant = Ok bps ->
  In b1 bps -> In b2 bps ->
  inside b1 value = true -> inside b2 value = true -> b1 = b2.
Proof.
  intros Htab H1 H2 I1 I2.
  destruct value as [v| | |]; try discriminate I1.
  apply inside_Fin in I1. apply inside_Fin in I2.
  destruct (ordered_compare _ _ _ (tables_ordered _ _ Htab) H1 H2)
    as [E|[[L _]|[L _]]]; [exact E|exfalso; lra..].
Qed.

Lemma every_table_has_a_gap (pollutant : string) (bps : list breakpoint) :
  dict_get breakpoints pollutant = Ok bps ->
  (0 <= first_gap bps <= table_max bps)%Q
  /\ (forall b, In b bps -> inside b (Fin (first_gap bps)) = false)
  /\ calculate_sub_index pollutant (Fin (first_gap bps)) = Ok 0.
Proof.
  intros Htab.
  assert (Hout : forall b, In b bps -> inside b (Fin (first_gap bps)) = false).
  { assert (Hall : forallb (fun b => negb (inside b (Fin (first_gap bps)))) bps
                   = true)
      by (each_table Htab; vm_compute; reflexivity).
    rewrite forallb_forall in Hall. intros b Hb.
    apply negb_true_iff, Hall, Hb. }
  split; [|split].
  - each_table Htab; split; apply Qle_bool_iff; vm_compute; reflexivity.
  - exact Hout.
  - apply (calculate_sub_index_outside _ _ _ Htab Hout).
Qed.

(** C4, at the failing input.  The PM2.5 table runs from 0 to 500, yet its
    ranges are not contiguous: the concentration 30.5 is inside none of them
    (the first range ends at 30, the second starts at 31), and
    [calculate_sub_index] gives it sub-index 0, between the 50 of
    concentration 30 and the 51 of concentration 31. *)
Theorem gap_concentration_is_unmatched :
  exists bps : list breakpoint,
    dict_get breakpoints "PM2.5" = Ok bps
    /\ (0 <= 30.5 <= table_max bps)%Q
    /\ (forall b, In b bps -> inside b (Fin 30.5) = false)
    /\ calculate_sub_index "PM2.5" (Fin 30) = Ok 50
    /\ calculate_sub_index "PM2.5" (Fin 30.5) = Ok 0
    /\ calculate_sub_index "PM2.5" (Fin 31) = Ok 51.
Proof.
  eexists. split; [reflexivity|].
  split; [split; apply Qle_bool_iff; vm_compute; reflexivity|].
  split; [|repeat split].
  intros b Hb. simpl in Hb.
  repeat (destruct Hb as [<-|Hb]; [reflexivity|]). destruct Hb.
Qed.

(** ** Monotonicity *)

Lemma scan_value (bps : list breakpoint) (v : Q) :
  ordered bps = true ->
  (scan bps (Fin v) = 0 /\ forall b, In b bps -> inside b (Fin v) = false)
  \/ exists b, In b bps /\ inside b (Fin v) = true
               /\ scan bps (Fin v) = interpolate b v.
Proof.
  intros Hord.
  destruct (existsb (fun b => inside b (Fin v)) bps) eqn:E.
  - right. apply existsb_exists in E. destruct E as (b & Hb & Hin).
    exists b. split; [exact Hb|]. split; [exact Hin|].
    apply scan_ordered; assumption.
  - left. assert (Hnone : forall b, In b bps -> inside b (Fin v) = false).
    { intros b Hb. destruct (inside b (Fin v)) eqn:I; [|reflexivity].
      assert (existsb (fun b => inside b (Fin v)) bps = true)
        by (apply existsb_exists; exists b; split; assumption).
      congruence. }
    split; [apply scan_outside, Hnone|exact Hnone].
Qed.

Lemma scan_monotone (bps : list breakpoint) (b2 : breakpoint) (c1 c2 : Q) :
  ordered bps = true -> ends_exact bps = true ->
  In b2 bps -> inside b2 (Fin c2) = true ->
  (c1 <= c2)%Q ->
  scan bps (Fin c1) <= scan bps (Fin c2).
Proof.
  intros Hord Hends H2 I2 Hc.
  rewrite (scan_ordered _ _ _ Hord H2 I2).
  apply inside_Fin in I2.
  pose proof (range_bounds _ _ _ Hord Hends H2 I2) as B2.
  destruct (ends_exact_In _ _ Hends H2) as (_ & _ & L2 & _).
  destruct (scan_value bps c1 Hord) as [[E _]|(b1 & H1 & I1 & E)];
    rewrite E; [lia|].
  apply inside_Fin in I1.
  pose proof (range_bounds _ _ _ Hord Hends H1 I1) as B1.
  destruct (ordered_compare _ _ _ Hord H1 H2) as [Eb|[[L Hi]|[L _]]].
  - subst b2. apply (range_mono bps); try assumption. apply I1.
  - lia.
  - exfalso. lra.
Qed.

(** C5, as the code has it.  For every pollutant, [calculate_sub_index] is
    non-decreasing up to every concentration that lies inside a range of
    the pollutant's table: for c1 <= c2 with c2 inside some range, the
    sub-index of c1 is at most that of c2.  Above the largest tabulated
    concentration the result is the fall-through value 0. *)
Theorem sub_index_monotone_inside_ranges :
  forall (pollutant : string) (bps : list breakpoint),
    dict_get breakpoints pollutant = Ok bps ->
    (forall (b2 : breakpoint) (c1 c2 : Q),
        In b2 bps -> inside b2 (Fin c2) = true -> (c1 <= c2)%Q ->
        sub_index_le (calculate_sub_index pollutant (Fin c1))
                     (calculate_sub_index pollutant (Fin c2)))
    /\ (forall c : Q,
           (table_max bps < c)%Q ->
           calculate_sub_index pollutant (Fin c) = Ok 0).
Proof.
  intros pollutant bps Htab. split.
  - intros b2 c1 c2 H2 I2 Hc.
    rewrite !(calculate_sub_index_scan _ _ _ Htab). simpl.
    exact (scan_monotone bps b2 c1 c2 (tables_ordered _ _ Htab)
                         (tables_ends_exact _ _ Htab) H2 I2 Hc).
  - intros c Hc. apply (above_max_gives_zero _ _ _ Htab Hc).
Qed.

Lemma sub_index_monotone_inside_ranges_witness :
  sub_index_le (calculate_sub_index "PM2.5" (Fin 30.5))
               (calculate_sub_index "PM2.5" (Fin 31))
  /\ sub_index_le (calculate_sub_index "PM2.5" (Fin 30))
                  (calculate_sub_index "PM2.5" (Fin 31))
  /\ calculate_sub_index "PM2.5" (Fin 501) = Ok 0.
Proof.
  pose proof (sub_index_monotone_inside_ranges "PM2.5" _ eq_refl) as [M Z].
  split; [|split].
  - apply (M (bp 31 60 51 100) 30.5 31)%Q.
    + right. left. reflexivity.
    + reflexivity.
    + apply Qle_bool_iff. reflexivity.
  - apply (M (bp 31 60 51 100) 30 31)%Q.
    + right. left. reflexivity.
    + reflexivity.
    + apply Qle_bool_iff. reflexivity.
  - apply Z. apply Qlt_alt. reflexivity.
Defined.

(** C5 as stated fails: 500 <= 501, but PM2.5 at 500 has sub-index 500 and
    at 501, above every range, the fall-through value 0. *)
Lemma monotone_fails_above_max :
  ~ (forall (pollutant : string) (c1 c2 : Q),
        In pollutant pollutants -> (c1 <= c2)%Q ->
        sub_index_le (calculate_sub_index pollutant (Fin c1))
                     (calculate_sub_index pollutant (Fin c2))).
Proof.
  intros H.
  assert (P : In "PM2.5" pollutants) by (left; reflexivity).
  assert (L : (500 <= 501)%Q) by discriminate.
  specialize (H "PM2.5" 500%Q 501%Q P L).
  vm_compute in H. apply H. reflexivity.
Qed.

(** ** Dictionaries and [max] *)

Lemma dict_set_fresh {V : Type} (d : dict V) (k : string) (v : V) :
  ~ In k (map fst d) -> dict_set d k v = (d ++ [(k, v)])%list.
Proof.
  induction d as [|[k' v'] d IH]; intros Hk; [reflexivity|].
  simpl in *. destruct (String.eqb_spec k k') as [->|_].
  - exfalso. apply Hk. left. reflexivity.
  - rewrite IH; [reflexivity|]. intros H. apply Hk. right. exact H.
Qed.

Lemma fold_left_max_ge (xs : list Z) (x : Z) :
  x <= fold_left Z.max xs x /\ forall i, In i xs -> i <= fold_left Z.max xs x.
Proof.
  revert x. induction xs as [|y xs IH]; intros x; simpl.
  - split; [lia|intros i []].
  - destruct (IH (Z.max x y)) as [H1 H2]. split; [lia|].
    intros i [<-|Hi]; [lia|apply H2, Hi].
Qed.

Lemma fold_left_max_In (xs : list Z) (x : Z) :
  fold_left Z.max xs x = x \/ In (fold_left Z.max xs x) xs.
Proof.
  revert x. induction xs as [|y xs IH]; intros x; simpl; [left; reflexivity|].
  destruct (IH (Z.max x y)) as [E|H].
  - rewrite E. destruct (Z.max_spec x y) as [[_ ->]|[_ ->]]; auto.
  - right. right. exact H.
Qed.

Lemma py_max_spec (xs : list Z) :
  xs <> [] ->
  exists m, py_max xs = Ok m /\ In m xs /\ forall i, In i xs -> i <= m.
Proof.
  destruct xs as [|x xs]; [congruence|]. intros _.
  exists (fold_left Z.max xs x). split; [reflexivity|].
  destruct (fold_left_max_ge xs x) as [H1 H2]. split.
  - destruct (fold_left_max_In xs x) as [E|H]; [left; symmetry; exact E|].
    right. exact H.
  - intros i [<-|Hi]; [exact H1|apply H2, Hi].
Qed.

(** ** The two loops of [predict_aqi] *)

Lemma sub_index_items_spec (items : dict pyfloat) :
  forall acc : dict Z,
    NoDup (map fst items) ->
    (forall p, In p (map fst items) -> ~ In p (map fst acc)) ->
    (forall p, In p (map fst items) -> In p pollutants) ->
    exists out : dict Z,
      sub_index_items items acc = Ok (acc ++ out)%list
      /\ Forall2 (fun pv pi => fst pi = fst pv
                    /\ calculate_sub_index (fst pv) (snd pv) = Ok (snd pi))
                 items out.
Proof.
  induction items as [|[p v] items IH]; intros acc Hnd Hfresh Hpol.
  - exists []. rewrite app_nil_r. split; [reflexivity|constructor].
  - simpl in *. inversion Hnd as [|? ? Hp Hnd']; subst.
    destruct (proj1 (pollutant_has_table p) (Hpol p (or_introl eq_refl)))
      as [bps Htab].
    rewrite (calculate_sub_index_scan _ _ v Htab). simpl.
    rewrite dict_set_fresh by (apply Hfresh; left; reflexivity).
    destruct (IH (acc ++ [(p, scan bps v)])%list Hnd') as (out & E & F).
    + intros q Hq. rewrite map_app, in_app_iff. simpl.
      intros [H|[<-|[]]]; [|contradiction].
      apply (Hfresh q); [right; exact Hq|exact H].
    + intros q Hq. apply Hpol. right. exact Hq.
    + exists ((p, scan bps v) :: out). rewrite E, <- app_assoc. simpl.
      split; [reflexivity|]. constructor; [|exact F]. simpl.
      split; [reflexivity|]. apply calculate_sub_index_scan, Htab.
Qed.

Section OrchestratorFacts.

Variable models : dict (DateFeatures -> result pyfloat).
Variable features : DateFeatures.

Lemma predict_loop_spec (ps : list string) :
  forall acc : dict pyfloat,
    NoDup ps ->
    (forall p, In p ps -> ~ In p (map fst acc)) ->
    (forall p, In p ps -> exists v, model_returns models features p v) ->
    exists out : dict pyfloat,
      predict_loop models ps features acc = Ok (acc ++ out)%list
      /\ Forall2 (fun p pv => fst pv = p
                    /\ model_returns models features p (snd pv)) ps out.
Proof.
  induction ps as [|p ps IH]; intros acc Hnd Hfresh Hret.
  - exists []. rewrite app_nil_r. split; [reflexivity|constructor].
  - inversion Hnd as [|? ? Hp Hnd']; subst.
    destruct (Hret p (or_introl eq_refl)) as (v & model & Hm & Hv).
    simpl. rewrite Hm. simpl. rewrite Hv. simpl.
    rewrite dict_set_fresh by (apply Hfresh; left; reflexivity).
    destruct (IH (acc ++ [(p, v)])%list Hnd') as (out & E & F).
    + intros q Hq. rewrite map_app, in_app_iff. simpl.
      intros [H|[<-|[]]]; [|contradiction].
      apply (Hfresh q); [right; exact Hq|exact H].
    + intros q Hq. apply Hret. right. exact Hq.
    + exists ((p, v) :: out). rewrite E, <- app_assoc. simpl.
      split; [reflexivity|]. constructor; [|exact F]. simpl.
      split; [reflexivity|]. exists model. split; assumption.
Qed.

Lemma predict_loop_raises (ps : list string) (p : string) (e : exn) :
  In p ps -> model_raises models features p e ->
  forall acc, exists e', predict_loop models ps features acc = Raise e'.
Proof.
  intros Hin (model & Hm & He).
  induction ps as [|p0 ps IH]; intros acc; [destruct Hin|].
  simpl. destruct (dict_get models p0) as [m0|e0] eqn:E0; simpl;
    [|eexists; reflexivity].
  destruct (m0 features) as [v0|e1] eqn:E1; simpl; [|eexists; reflexivity].
  destruct Hin as [->|Hin]; [congruence|]. apply IH, Hin.
Qed.

End OrchestratorFacts.

Lemma pollutants_NoDup : NoDup pollutants.
Proof.
  repeat constructor; simpl; intuition discriminate.
Qed.

Lemma Forall2_keys {A : Type} (R : string -> string * A -> Prop)
  (ps : list string) (d : dict A) :
  Forall2 (fun p pv => fst pv = p /\ R p pv) ps d -> map fst d = ps.
Proof.
  induction 1 as [|p pv ps d [E _] _ IH]; simpl; [reflexivity|].
  rewrite E, IH. reflexivity.
Qed.

(** When the date parses and every model returns a concentration,
    [predict_aqi] returns: the predictions in the order of [pollutants],
    their sub-indices, and the largest of these with its category. *)
Lemma predict_aqi_returns (models : dict (DateFeatures -> result pyfloat))
  (input_date : text) (features : DateFeatures) :
  get_date_features input_date = Ok features ->
  (forall p, In p pollutants -> exists v, model_returns models features p v) ->
  exists (predicted : dict pyfloat) (sub_indices : dict Z) (aqi : Z),
    predict_aqi models input_date
    = Ok (predicted, sub_indices, aqi, category_of aqi)
    /\ Forall2 (fun p pv => fst pv = p
                  /\ model_returns models features p (snd pv))
               pollutants predicted
    /\ Forall2 (fun pv pi => fst pi = fst pv
                  /\ calculate_sub_index (fst pv) (snd pv) = Ok (snd pi))
               predicted sub_indices
    /\ In aqi (values sub_indices)
    /\ (forall i, In i (values sub_indices) -> i <= aqi).
Proof.
  intros Hdate Hret.
  destruct (predict_loop_spec models features pollutants [] pollutants_NoDup)
    as (predicted & Ep & Fp); [intros p _ []|exact Hret|].
  simpl app in Ep.
  pose proof (Forall2_keys _ _ _ Fp) as Kp.
  destruct (sub_index_items_spec predicted []) as (subs & Es & Fs).
  { rewrite Kp. exact pollutants_NoDup. }
  { intros p _ []. }
  { rewrite Kp. auto. }
  simpl app in Es.
  destruct (py_max_spec (values subs)) as (aqi & Em & Hin & Hub).
  { intros Hnil. apply (f_equal (@List.length Z)) in Hnil.
    unfold values in Hnil. rewrite length_map in Hnil.
    rewrite <- (Forall2_length Fs), <- (Forall2_length Fp) in Hnil.
    discriminate Hnil. }
  exists predicted, subs, aqi.
  unfold predict_aqi. rewrite Hdate. cbn [bind]. rewrite Ep. cbn [bind].
  rewrite Es. cbn [bind]. rewrite Em. cbn [bind]. auto.
Qed.

(** ** [predict_aqi] *)

(** C1.  When a prediction request goes through (the date parses and every
    model returns a concentration), [predict_aqi] returns the output of each
    pollutant's model, the sub-index of each output, as AQI the maximum of
    these sub-indices (one of them, and at least each of them, so neither
    their average nor their sum) and as category the category of that
    maximum; whenever the sub-indices of the model outputs are 40, 60, 150,
    10, 5, 20 and 30, the AQI is 150 and the category Moderate. *)
Theorem aqi_is_max_sub_index :
  forall (models : dict (DateFeatures -> result pyfloat))
         (input_date : text) (features : DateFeatures),
    get_date_features input_date = Ok features ->
    (forall p, In p pollutants -> exists v, model_returns models features p v) ->
    exists (predicted : dict pyfloat) (sub_indices : dict Z) (aqi : Z),
      predict_aqi models input_date
      = Ok (predicted, sub_indices, aqi, category_of aqi)
      /\ Forall2 (fun p pv => fst pv = p
                    /\ model_returns models features p (snd pv))
                 pollutants predicted
      /\ Forall2 (fun pv pi => fst pi = fst pv
                    /\ calculate_sub_index (fst pv) (snd pv) = Ok (snd pi))
                 predicted sub_indices
      /\ In aqi (values sub_indices)
      /\ (forall i, In i (values sub_indices) -> i <= aqi)
      /\ ((forall i, In i (values sub_indices)
                     <-> In i [40; 60; 150; 10; 5; 20; 30]) ->
          aqi = 150 /\ category_of aqi = "Moderate").
Proof.
  intros models input_date features Hdate Hret.
  destruct (predict_aqi_returns models input_date features Hdate Hret)
    as (predicted & subs & aqi & E & Fp & Fs & Hin & Hub).
  exists predicted, subs, aqi.
  split; [exact E|]. split; [exact Fp|]. split; [exact Fs|].
  split; [exact Hin|]. split; [exact Hub|].
  intros H. assert (aqi = 150); [|subst; split; reflexivity].
  apply Z.le_antisymm.
  - apply H in Hin. simpl in Hin. lia.
  - apply Hub, H. simpl. tauto.
Qed.

Lemma aqi_is_max_sub_index_witness :
  predict_aqi (constant_models sample_outputs) (code_points "15-03-2024")
  = Ok ([("PM2.5", Fin 24); ("PM10", Fin 60); ("NO2", Fin 130);
         ("NH3", Fin 40); ("SO2", Fin 4); ("CO", Fin (float_literal 0.4)); ("O3", Fin 30)],
        [("PM2.5", 40); ("PM10", 60); ("NO2", 150); ("NH3", 10); ("SO2", 5);
         ("CO", 20); ("O3", 30)],
        150, "Moderate")
  /\ exists (predicted : dict pyfloat) (sub_indices : dict Z) (aqi : Z),
      predict_aqi (constant_models sample_outputs) (code_points "15-03-2024")
      = Ok (predicted, sub_indices, aqi, category_of aqi)
      /\ Forall2 (fun p pv => fst pv = p
                    /\ model_returns (constant_models sample_outputs)
                         (mkFeatures 2024 3 15 4) p (snd pv))
                 pollutants predicted
      /\ Forall2 (fun pv pi => fst pi = fst pv
                    /\ calculate_sub_index (fst pv) (snd pv) = Ok (snd pi))
                 predicted sub_indices
      /\ In aqi (values sub_indices)
      /\ (forall i, In i (values sub_indices) -> i <= aqi)
      /\ ((forall i, In i (values sub_indices)
                     <-> In i [40; 60; 150; 10; 5; 20; 30]) ->
          aqi = 150 /\ category_of aqi = "Moderate").
Proof.
  split; [vm_compute; reflexivity|].
  apply (aqi_is_max_sub_index (constant_models sample_outputs)
           (code_points "15-03-2024") (mkFeatures 2024 3 15 4) eq_refl).
  intros p Hp. simpl in Hp.
  repeat (destruct Hp as [<-|Hp];
          [eexists; eexists; split; reflexivity|]).
  destruct Hp.
Defined.

Lemma predict_loop_first_failure
  (models : dict (DateFeatures -> result pyfloat)) (features : DateFeatures)
  (p : string) (after : list string) (e : exn) (before : list string) :
  (forall q, In q before -> exists v, model_returns models features q v) ->
  dict_get models p = Raise e \/ model_raises models features p e ->
  forall acc,
    predict_loop models (before ++ p :: after)%list features acc = Raise e.
Proof.
  intros Hbefore Hfail.
  induction before as [|q before IH]; intros acc.
  - simpl. destruct Hfail as [Hmiss|(m & Hm & Hr)].
    + rewrite Hmiss. reflexivity.
    + rewrite Hm. cbn [bind]. rewrite Hr. reflexivity.
  - destruct (Hbefore q (or_introl eq_refl)) as (v & m & Hm & Hv).
    simpl. rewrite Hm. cbn [bind]. rewrite Hv. cbn [bind].
    apply IH. intros q' Hq'. apply Hbefore. right. exact Hq'.
Qed.

Lemma model_returns_unique
  (models : dict (DateFeatures -> result pyfloat)) (features : DateFeatures)
  (p : string) (v v' : pyfloat) :
  model_returns models features p v -> model_returns models features p v' ->
  v = v'.
Proof.
  intros (m & Hm & Hv) (m' & Hm' & Hv'). congruence.
Qed.

Lemma predicted_holds_outputs
  (models : dict (DateFeatures -> result pyfloat)) (features : DateFeatures)
  (ps : list string) (predicted : dict pyfloat) (p : string) (v : pyfloat) :
  Forall2 (fun p pv => fst pv = p /\ model_returns models features p (snd pv))
          ps predicted ->
  In p ps -> model_returns models features p v -> In (p, v) predicted.
Proof.
  induction 1 as [|q pv ps predicted [E R] _ IH]; intros Hp Hv;
    [destruct Hp|].
  destruct Hp as [->|Hp]; [|right; apply IH; assumption].
  left. destruct pv as [k w]. simpl in *. subst k.
  f_equal. eapply model_returns_unique; eassumption.
Qed.

(** C7, as the code has it.  Once the date has parsed: if the model of some
    pollutant raises, [predict_aqi] raises too and returns nothing, and what
    it raises is the exception of the first pollutant whose model raises
    when the models before it return; if every model returns a value,
    [predict_aqi] returns normally whatever the values are, with each
    model's output among the predictions, and an output that is not a
    number or is negative is kept there and given sub-index 0. *)
Theorem model_failure_propagates_invalid_output_does_not :
  forall (models : dict (DateFeatures -> result pyfloat))
         (input_date : text) (features : DateFeatures),
    get_date_features input_date = Ok features ->
    (forall p e, In p pollutants -> model_raises models features p e ->
                 exists e', predict_aqi models input_date = Raise e')
    /\ (forall before after p e,
           pollutants = (before ++ p :: after)%list ->
           (forall q, In q before ->
                      exists v, model_returns models features q v) ->
           model_raises models features p e ->
           predict_aqi models input_date = Raise e)
    /\ ((forall p, In p pollutants ->
                   exists v, model_returns models features p v) ->
        exists (predicted : dict pyfloat) (sub_indices : dict Z) (aqi : Z),
          predict_aqi models input_date
          = Ok (predicted, sub_indices, aqi, category_of aqi)
          /\ Forall2 (fun p pv => fst pv = p
                        /\ model_returns models features p (snd pv))
                     pollutants predicted
          /\ forall p v, In p pollutants ->
                         model_returns models features p v ->
                         invalid_output v ->
                         In (p, v) predicted /\ In (p, 0) sub_indices).
Proof.
  intros models input_date features Hdate. split; [|split].
  - intros p e Hp Hr.
    destruct (predict_loop_raises models features pollutants p e Hp Hr [])
      as [e' E].
    exists e'. unfold predict_aqi. rewrite Hdate. cbn [bind]. rewrite E.
    reflexivity.
  - intros before after p e Hsplit Hbefore Hraise.
    unfold predict_aqi. rewrite Hdate, Hsplit. cbn [bind].
    rewrite (predict_loop_first_failure models features p after e
               before Hbefore); [reflexivity|].
    right. exact Hraise.
  - intros Hret.
    destruct (predict_aqi_returns models input_date features Hdate Hret)
      as (predicted & subs & aqi & E & Fp & Fs & _ & _).
    exists predicted, subs, aqi. split; [exact E|]. split; [exact Fp|].
    intros p v Hpol Hv Hbad.
    pose proof (predicted_holds_outputs _ _ _ _ _ _ Fp Hpol Hv) as Hin.
    split; [exact Hin|].
    destruct (proj1 (pollutant_has_table p) Hpol) as [bps Htab].
    assert (Hzero : calculate_sub_index p v = Ok 0).
    { destruct Hbad as [->|(q & -> & Hq)].
      - apply (not_finite_gives_zero _ _ _ Htab). discriminate.
      - apply (negative_gives_zero _ _ _ Htab Hq). }
    clear Fp E. induction Fs as [|pv pi predicted subs [E1 E2] _ IH];
      [destruct Hin|].
    destruct Hin as [->|Hin]; [|right; apply IH, Hin].
    left. simpl in E1, E2. rewrite Hzero in E2. injection E2 as E2.
    destruct pi as [k i]. simpl in *. subst. reflexivity.
Qed.

Lemma model_failure_propagates_invalid_output_does_not_witness :
  predict_aqi raising_models (code_points "15-03-2024")
  = Raise (ModelRaised "predict")
  /\ exists (predicted : dict pyfloat) (sub_indices : dict Z) (aqi : Z),
      predict_aqi (constant_models faulty_outputs) (code_points "15-03-2024")
      = Ok (predicted, sub_indices, aqi, category_of aqi)
      /\ Forall2 (fun p pv => fst pv = p
                    /\ model_returns (constant_models faulty_outputs)
                         (mkFeatures 2024 3 15 4) p (snd pv))
                 pollutants predicted
      /\ forall p v, In p pollutants ->
                     model_returns (constant_models faulty_outputs)
                       (mkFeatures 2024 3 15 4) p v ->
                     invalid_output v ->
                     In (p, v) predicted /\ In (p, 0) sub_indices.
Proof.
  split.
  - apply (proj1 (proj2 (model_failure_propagates_invalid_output_does_not
                           raising_models (code_points "15-03-2024")
                           (mkFeatures 2024 3 15 4) eq_refl))
             ["PM2.5"; "PM10"] ["NH3"; "SO2"; "CO"; "O3"] "NO2"
             (ModelRaised "predict") eq_refl).
    + intros q Hq. simpl in Hq.
      repeat (destruct Hq as [<-|Hq];
              [eexists; eexists; split; reflexivity|]).
      destruct Hq.
    + eexists. split; reflexivity.
  - apply (proj2 (proj2 (model_failure_propagates_invalid_output_does_not
                           (constant_models faulty_outputs)
                           (code_points "15-03-2024")
                           (mkFeatures 2024 3 15 4) eq_refl))).
    intros p Hp. simpl in Hp.
    repeat (destruct Hp as [<-|Hp];
            [eexists; eexists; split; reflexivity|]).
    destruct Hp.
Defined.

(** C7 as stated fails: with a model output of -5 for PM2.5 and one that is
    not a number for PM10, [predict_aqi] raises nothing; it returns both
    values among the predictions, gives each sub-index 0 and reports the
    AQI of the remaining pollutants. *)
Lemma invalid_outputs_are_not_rejected :
  predict_aqi (constant_models faulty_outputs) (code_points "15-03-2024")
  = Ok ([("PM2.5", Fin (-5)); ("PM10", NaN); ("NO2", Fin 130);
         ("NH3", Fin 40); ("SO2", Fin 4); ("CO", Fin (float_literal 0.4)); ("O3", Fin 30)],
        [("PM2.5", 0); ("PM10", 0); ("NO2", 150); ("NH3", 10); ("SO2", 5);
         ("CO", 20); ("O3", 30)],
        150, "Moderate").
Proof.
  vm_compute. reflexivity.
Qed.

(** ** Characters and digits *)

Lemma In_Zrange (n : nat) (lo d : Z) :
  lo <= d < lo + Z.of_nat n ->
  In d (map (fun i => lo + Z.of_nat i) (seq 0 n)).
Proof.
  intros H. apply in_map_iff. exists (Z.to_nat (d - lo)).
  split; [lia|]. apply in_seq. lia.
Qed.

Ltac enumerate d lo n :=
  let E := fresh in
  assert (E : In d (map (fun i => lo + Z.of_nat i) (seq 0 n)))
    by (apply In_Zrange; lia);
  simpl in E;
  repeat (destruct E as [E|E]; [subst d|]); [..|destruct E].

Lemma in_class_spec (lo hi : ascii) (c : Z) :
  in_class lo hi c = true <-> char lo <= c <= char hi.
Proof.
  unfold in_class. rewrite andb_true_iff, !Z.leb_le. tauto.
Qed.

Lemma is_char_spec (a : ascii) (c : Z) : is_char a c = true <-> c = char a.
Proof.
  unfold is_char. apply Z.eqb_eq.
Qed.

Lemma digit_value_range (c n : Z) : digit_value c = Some n -> 0 <= n <= 9.
Proof.
  unfold digit_value.
  destruct (find _ decimal_zeros) as [z|] eqn:F; [|discriminate].
  intros [= <-]. apply find_some in F. destruct F as [_ F].
  apply andb_true_iff in F. rewrite !Z.leb_le in F. lia.
Qed.

Lemma digit_value_ascii (n : Z) :
  0 <= n <= 9 -> digit_value (ascii_digit n) = Some n.
Proof.
  intros H. enumerate n 0 10%nat; reflexivity.
Qed.

Lemma re_digit_value (c : Z) :
  re_digit c = true <-> exists n, digit_value c = Some n.
Proof.
  unfold re_digit. destruct (digit_value c) as [n|]; split.
  - intros _. exists n. reflexivity.
  - reflexivity.
  - discriminate.
  - intros [n E]. discriminate E.
Qed.

Lemma digit_is_not (a : ascii) (c n : Z) :
  digit_value (char a) = None -> digit_value c = Some n ->
  is_char a c = false.
Proof.
  intros Ha Hc. destruct (is_char a c) eqn:E; [|reflexivity].
  apply is_char_spec in E. subst c. congruence.
Qed.

Lemma int_acc_digit (acc c n : Z) (r : text) :
  digit_value c = Some n -> int_acc acc (c :: r) = int_acc (10 * acc + n) r.
Proof.
  intros H. cbn [int_acc]. rewrite H. reflexivity.
Qed.

Lemma int_two (a b n k : Z) :
  digit_value a = Some n -> digit_value b = Some k -> int [a; b] = 10 * n + k.
Proof.
  intros Ha Hb. unfold int.
  rewrite (int_acc_digit _ _ _ _ Ha), (int_acc_digit _ _ _ _ Hb).
  cbn [int_acc]. lia.
Qed.

Lemma int_four (c1 c2 c3 c4 a b c d : Z) :
  digit_value c1 = Some a -> digit_value c2 = Some b ->
  digit_value c3 = Some c -> digit_value c4 = Some d ->
  int [c1; c2; c3; c4] = 1000 * a + 100 * b + 10 * c + d.
Proof.
  intros H1 H2 H3 H4. unfold int.
  rewrite (int_acc_digit _ _ _ _ H1), (int_acc_digit _ _ _ _ H2),
    (int_acc_digit _ _ _ _ H3), (int_acc_digit _ _ _ _ H4).
  cbn [int_acc]. lia.
Qed.

(** ** The regular expression of the format: what it accepts *)

Ltac absurd_In := let H := fresh in intro H; solve [destruct H].

Lemma re1_sound (p : Z -> bool) (s x r : text) :
  In (x, r) (re1 p s) ->
  exists a, p a = true /\ x = [a] /\ s = a :: r.
Proof.
  destruct s as [|a s]; simpl; [intros []|].
  destruct (p a) eqn:E; simpl; [|intros []].
  intros [[= <- <-]|[]]. exists a. auto.
Qed.

Lemma re2_sound (p q : Z -> bool) (s x r : text) :
  In (x, r) (re2 p q s) ->
  exists a b, p a = true /\ q b = true /\ x = [a; b] /\ s = a :: b :: r.
Proof.
  destruct s as [|a [|b s]]; simpl; try absurd_In.
  destruct (p a) eqn:Ea, (q b) eqn:Eb; simpl; try absurd_In.
  intros [[= <- <-]|[]]. exists a, b. auto.
Qed.

(** A day written with two characters of which the first is an ASCII
    digit. *)
Lemma day_text_two (n k b : Z) :
  0 <= n <= 3 -> digit_value b = Some k ->
  1 <= 10 * n + k <= 31 ->
  (1 <= n <= 2 \/ b = ascii_digit k) ->
  int [ascii_digit n; b] = 10 * n + k
  /\ day_text [ascii_digit n; b] (10 * n + k).
Proof.
  intros Hn Hb Hd Hc.
  pose proof (digit_value_range _ _ Hb) as Hk.
  assert (Dn : (10 * n + k) / 10 = n) by (Z.div_mod_to_equations; lia).
  assert (Dk : (10 * n + k) mod 10 = k) by (Z.div_mod_to_equations; lia).
  split.
  - apply int_two; [apply digit_value_ascii; lia|exact Hb].
  - split; [exact Hd|]. left. exists b. rewrite Dn, Dk.
    split; [reflexivity|]. split; [exact Hb|].
    destruct Hc as [Hc|Hc]; [left; lia|right; exact Hc].
Qed.

Lemma day_text_one (n : Z) :
  1 <= n <= 9 ->
  int [ascii_digit n] = n /\ day_text [ascii_digit n] n
  /\ int [char " "; ascii_digit n] = n
  /\ day_text [char " "; ascii_digit n] n.
Proof.
  intros H. enumerate n 1 9%nat;
    (split; [reflexivity|]; split;
     [split; [lia|right; split; [lia|left; reflexivity]]|];
     split; [reflexivity|];
     split; [lia|right; split; [lia|right; reflexivity]]).
Qed.

Lemma ascii_class (lo hi : Z) (c : Z) :
  0 <= lo -> hi <= 9 -> ascii_digit lo <= c <= ascii_digit hi ->
  exists n, lo <= n <= hi /\ c = ascii_digit n.
Proof.
  intros Hlo Hhi H. exists (c - 48). unfold ascii_digit in *. lia.
Qed.

Lemma re_d_sound (s x r : text) :
  In (x, r) (re_d s) -> s = (x ++ r)%list /\ day_text x (int x).
Proof.
  unfold re_d. rewrite !in_app_iff.
  intros [H|[H|[H|[H|H]]]].
  - apply re2_sound in H. destruct H as (a & b & Ha & Hb & -> & ->).
    apply is_char_spec in Ha. subst a. apply in_class_spec in Hb.
    destruct (ascii_class 0 1 b ltac:(lia) ltac:(lia) Hb) as (k & Hk & ->).
    split; [reflexivity|].
    destruct (day_text_two 3 k (ascii_digit k)) as [E D];
      [lia|apply digit_value_ascii; lia|lia|right; reflexivity|].
    change (char "3") with (ascii_digit 3). rewrite E. exact D.
  - apply re2_sound in H. destruct H as (a & b & Ha & Hb & -> & ->).
    apply in_class_spec in Ha.
    destruct (ascii_class 1 2 a ltac:(lia) ltac:(lia) Ha) as (n & Hn & ->).
    apply re_digit_value in Hb. destruct Hb as [k Hb].
    pose proof (digit_value_range _ _ Hb) as Hk.
    split; [reflexivity|].
    destruct (day_text_two n k b) as [E D]; [lia|exact Hb|lia|left; lia|].
    rewrite E. exact D.
  - apply re2_sound in H. destruct H as (a & b & Ha & Hb & -> & ->).
    apply is_char_spec in Ha. subst a. apply in_class_spec in Hb.
    destruct (ascii_class 1 9 b ltac:(lia) ltac:(lia) Hb) as (k & Hk & ->).
    split; [reflexivity|].
    destruct (day_text_two 0 k (ascii_digit k)) as [E D];
      [lia|apply digit_value_ascii; lia|lia|right; reflexivity|].
    change (char "0") with (ascii_digit 0). rewrite E. exact D.
  - apply re1_sound in H. destruct H as (a & Ha & -> & ->).
    apply in_class_spec in Ha.
    destruct (ascii_class 1 9 a ltac:(lia) ltac:(lia) Ha) as (n & Hn & ->).
    split; [reflexivity|].
    destruct (day_text_one n Hn) as (E & D & _). rewrite E. exact D.
  - apply re2_sound in H. destruct H as (a & b & Ha & Hb & -> & ->).
    apply is_char_spec in Ha. subst a. apply in_class_spec in Hb.
    destruct (ascii_class 1 9 b ltac:(lia) ltac:(lia) Hb) as (n & Hn & ->).
    split; [reflexivity|].
    destruct (day_text_one n Hn) as (_ & _ & E & D). rewrite E. exact D.
Qed.

Lemma month_text_two (n k : Z) :
  0 <= n <= 1 -> 0 <= k <= 9 -> 1 <= 10 * n + k <= 12 ->
  int [ascii_digit n; ascii_digit k] = 10 * n + k
  /\ month_text [ascii_digit n; ascii_digit k] (10 * n + k).
Proof.
  intros Hn Hk Hm.
  assert (Dn : (10 * n + k) / 10 = n) by (Z.div_mod_to_equations; lia).
  assert (Dk : (10 * n + k) mod 10 = k) by (Z.div_mod_to_equations; lia).
  split.
  - apply int_two; apply digit_value_ascii; lia.
  - split; [exact Hm|]. left. rewrite Dn, Dk. reflexivity.
Qed.

Lemma month_text_one (n : Z) :
  1 <= n <= 9 -> int [ascii_digit n] = n /\ month_text [ascii_digit n] n.
Proof.
  intros H. enumerate n 1 9%nat;
    (split; [reflexivity|]; split; [lia|right; split; [lia|reflexivity]]).
Qed.

Lemma re_m_sound (s x r : text) :
  In (x, r) (re_m s) -> s = (x ++ r)%list /\ month_text x (int x).
Proof.
  unfold re_m. rewrite !in_app_iff.
  intros [H|[H|H]].
  - apply re2_sound in H. destruct H as (a & b & Ha & Hb & -> & ->).
    apply is_char_spec in Ha. subst a. apply in_class_spec in Hb.
    destruct (ascii_class 0 2 b ltac:(lia) ltac:(lia) Hb) as (k & Hk & ->).
    split; [reflexivity|].
    destruct (month_text_two 1 k) as [E D]; [lia..|].
    change (char "1") with (ascii_digit 1). rewrite E. exact D.
  - apply re2_sound in H. destruct H as (a & b & Ha & Hb & -> & ->).
    apply is_char_spec in Ha. subst a. apply in_class_spec in Hb.
    destruct (ascii_class 1 9 b ltac:(lia) ltac:(lia) Hb) as (k & Hk & ->).
    split; [reflexivity|].
    destruct (month_text_two 0 k) as [E D]; [lia..|].
    change (char "0") with (ascii_digit 0). rewrite E. exact D.
  - apply re1_sound in H. destruct H as (a & Ha & -> & ->).
    apply in_class_spec in Ha.
    destruct (ascii_class 1 9 a ltac:(lia) ltac:(lia) Ha) as (n & Hn & ->).
    split; [reflexivity|].
    destruct (month_text_one n Hn) as (E & D). rewrite E. exact D.
Qed.

Lemma re_Y_sound (s x r : text) :
  In (x, r) (re_Y s) -> s = (x ++ r)%list /\ year_text x (int x).
Proof.
  destruct s as [|c1 [|c2 [|c3 [|c4 s]]]]; simpl; try absurd_In.
  destruct (re_digit c1) eqn:E1, (re_digit c2) eqn:E2,
           (re_digit c3) eqn:E3, (re_digit c4) eqn:E4; simpl; try absurd_In.
  intros [[= <- <-]|[]]. split; [reflexivity|].
  apply re_digit_value in E1, E2, E3, E4.
  destruct E1 as [a H1], E2 as [b H2], E3 as [c H3], E4 as [d H4].
  exists c1, c2, c3, c4, a, b, c, d.
  split; [reflexivity|]. repeat (split; [assumption|]).
  apply int_four; assumption.
Qed.

Lemma re_dash_sound (s r : text) :
  In r (re_dash s) -> s = char "-" :: r.
Proof.
  unfold re_dash. destruct s as [|a s]; [intros []|].
  destruct (is_char "-" a) eqn:E; simpl; [|intros []].
  intros [<-|[]]. apply is_char_spec in E. subst a. reflexivity.
Qed.

Lemma format_regex_sound (s d m y rest : text) :
  In (d, m, y, rest) (format_regex s) ->
  s = (d ++ char "-" :: m ++ char "-" :: y ++ rest)%list
  /\ day_text d (int d) /\ month_text m (int m) /\ year_text y (int y).
Proof.
  unfold format_regex. intros H.
  apply in_flat_map in H. destruct H as ([d' r1] & Hd & H).
  apply in_flat_map in H. destruct H as (r2 & H1 & H).
  apply in_flat_map in H. destruct H as ([m' r3] & Hm & H).
  apply in_flat_map in H. destruct H as (r4 & H3 & H).
  apply in_map_iff in H. destruct H as ([y' r5] & E & Hy).
  injection E as <- <- <- <-.
  apply re_d_sound in Hd. destruct Hd as [-> Dd].
  apply re_dash_sound in H1. subst r1.
  apply re_m_sound in Hm. destruct Hm as [-> Dm].
  apply re_dash_sound in H3. subst r3.
  apply re_Y_sound in Hy. destruct Hy as [-> Dy].
  auto.
Qed.

(** ** The regular expression of the format: what it finds *)

Lemma re_d_two (a b : Z) (r : text) :
  re_d (a :: b :: r)
  = ((if (is_char "3" a && in_class "0" "1" b)%bool
      then [([a; b], r)] else [])
     ++ (if (in_class "1" "2" a && re_digit b)%bool
         then [([a; b], r)] else [])
     ++ (if (is_char "0" a && in_class "1" "9" b)%bool
         then [([a; b], r)] else [])
     ++ (if in_class "1" "9" a then [([a], b :: r)] else [])
     ++ (if (is_char " " a && in_class "1" "9" b)%bool
         then [([a; b], r)] else []))%list.
Proof.
  reflexivity.
Qed.

Lemma re_dash_digit (c n : Z) (r : text) :
  digit_value c = Some n -> re_dash (c :: r) = [].
Proof.
  intros H. unfold re_dash.
  rewrite (digit_is_not "-" c n); [reflexivity|reflexivity|exact H].
Qed.

Lemma re_d_complete (dt : text) (d : Z) :
  day_text dt d ->
  int dt = d
  /\ forall (A : Type) (K : text -> text -> list A) (r : text),
      flat_map (fun '(x, r1) => flat_map (K x) (re_dash r1))
               (re_d (dt ++ char "-" :: r)%list)
      = K dt r.
Proof.
  intros [Hd [(c & -> & Hc & Hs)|[H9 [->| ->]]]].
  - split.
    + pose proof (digit_value_range _ _ Hc).
      rewrite (int_two _ _ (d / 10) (d mod 10));
        [Z.div_mod_to_equations; lia
        |apply digit_value_ascii; Z.div_mod_to_equations; lia
        |exact Hc].
    + intros A K r. destruct Hs as [Hs| ->].
      * assert (Hn : 1 <= d / 10 <= 2) by (Z.div_mod_to_equations; lia).
        assert (Hr : re_digit c = true)
          by (apply re_digit_value; eexists; exact Hc).
        change ([ascii_digit (d / 10); c] ++ char "-" :: r)%list
          with (ascii_digit (d / 10) :: c :: char "-" :: r).
        rewrite re_d_two, Hr.
        remember (d / 10) as n eqn:En. clear En.
        enumerate n 1 2%nat;
          repeat match goal with
                 | |- context [is_char ?a (ascii_digit ?k)] =>
                     let v := eval vm_compute in (is_char a (ascii_digit k)) in
                     change (is_char a (ascii_digit k)) with v
                 | |- context [in_class ?lo ?hi (ascii_digit ?k)] =>
                     let v := eval vm_compute in
                              (in_class lo hi (ascii_digit k)) in
                     change (in_class lo hi (ascii_digit k)) with v
                 end;
          cbn [andb app flat_map];
          change (re_dash (char "-" :: r)) with [r];
          rewrite (re_dash_digit c _ _ Hc);
          cbn [flat_map app]; rewrite ?app_nil_r; reflexivity.
      * enumerate d 1 31%nat;
          simpl; rewrite ?app_nil_r; reflexivity.
  - enumerate d 1 9%nat;
      (split; [reflexivity|intros A K r; simpl; rewrite ?app_nil_r; reflexivity]).
  - enumerate d 1 9%nat;
      (split; [reflexivity|intros A K r; simpl; rewrite ?app_nil_r; reflexivity]).
Qed.

Lemma re_m_complete (mt : text) (m : Z) :
  month_text mt m ->
  int mt = m
  /\ forall (A : Type) (K : text -> text -> list A) (r : text),
      flat_map (fun '(x, r3) => flat_map (K x) (re_dash r3))
               (re_m (mt ++ char "-" :: r)%list)
      = K mt r.
Proof.
  intros [Hm [->|[H9 ->]]].
  - enumerate m 1 12%nat;
      (split; [reflexivity|intros A K r; simpl; rewrite ?app_nil_r; reflexivity]).
  - enumerate m 1 9%nat;
      (split; [reflexivity|intros A K r; simpl; rewrite ?app_nil_r; reflexivity]).
Qed.

Lemma re_Y_complete (yt : text) (y : Z) :
  year_text yt y -> int yt = y /\ re_Y yt = [(yt, [])].
Proof.
  intros (c1 & c2 & c3 & c4 & a & b & c & d & -> & H1 & H2 & H3 & H4 & ->).
  split.
  - apply int_four; assumption.
  - unfold re_Y.
    rewrite (proj2 (re_digit_value c1)), (proj2 (re_digit_value c2)),
      (proj2 (re_digit_value c3)), (proj2 (re_digit_value c4));
      [reflexivity|eexists; eassumption..].
Qed.

Lemma format_regex_complete (dt mt yt : text) (d m y : Z) :
  day_text dt d -> month_text mt m -> year_text yt y ->
  format_regex (dt ++ char "-" :: mt ++ char "-" :: yt)%list
  = [(dt, mt, yt, [])].
Proof.
  intros Hd Hm Hy. unfold format_regex.
  destruct (re_d_complete dt d Hd) as [_ Kd].
  destruct (re_m_complete mt m Hm) as [_ Km].
  destruct (re_Y_complete yt y Hy) as [_ Ky].
  etransitivity;
    [exact (Kd _ (fun d r2 =>
                    flat_map (fun '(m, r3) =>
                    flat_map (fun r4 =>
                      map (fun '(y, r5) => (d, m, y, r5)) (re_Y r4))
                             (re_dash r3)) (re_m r2))
               (mt ++ char "-" :: yt)%list)|].
  etransitivity;
    [exact (Km _ (fun m r4 =>
                    map (fun '(y, r5) => (dt, m, y, r5)) (re_Y r4)) yt)|].
  rewrite Ky. reflexivity.
Qed.

(** ** The calendar *)

Lemma is_leap_leap_year (y : Z) : is_leap y = leap_year y.
Proof.
  unfold is_leap, leap_year.
  destruct (Z.eqb_spec (y mod 4) 0), (Z.eqb_spec (y mod 100) 0),
           (Z.eqb_spec (y mod 400) 0); simpl; try reflexivity;
    exfalso; Z.div_mod_to_equations; lia.
Qed.

Lemma days_in_month_length (y m : Z) :
  1 <= m <= 12 -> days_in_month y m = month_length y m.
Proof.
  intros H. unfold days_in_month, month_length.
  rewrite is_leap_leap_year.
  enumerate m 1 12%nat; simpl; destruct (leap_year y); reflexivity.
Qed.

Lemma check_date_fields_possible (y m d : Z) :
  check_date_fields y m d = true <-> possible_date y m d /\ y <= 9999.
Proof.
  unfold check_date_fields, possible_date.
  rewrite !andb_true_iff, !Z.leb_le. split.
  - intros H. rewrite <- days_in_month_length by lia. lia.
  - intros H. rewrite days_in_month_length by lia. lia.
Qed.

Lemma month_length_bounds (y m : Z) : 28 <= month_length y m <= 31.
Proof.
  unfold month_length.
  destruct (m =? 2); [destruct (leap_year y); lia|].
  destruct ((m =? 4) || (m =? 6) || (m =? 9) || (m =? 11))%bool; lia.
Qed.

Lemma days_before_next_month (y m : Z) :
  1 <= m < 12 ->
  days_before_month y (m + 1) = days_before_month y m + month_length y m.
Proof.
  intros H. unfold days_before_month, month_length.
  rewrite is_leap_leap_year.
  enumerate m 1 11%nat; simpl; destruct (leap_year y); reflexivity.
Qed.

Lemma days_before_next_year (y : Z) :
  days_before_year (y + 1)
  = days_before_year y + days_before_month y 12 + month_length y 12.
Proof.
  unfold days_before_year, days_before_month, month_length.
  rewrite is_leap_leap_year. unfold leap_year. simpl.
  replace (y + 1 - 1) with y by lia.
  destruct (Z.eqb_spec (y mod 4) 0), (Z.eqb_spec (y mod 100) 0),
           (Z.eqb_spec (y mod 400) 0); simpl;
    Z.div_mod_to_equations; lia.
Qed.

(** The ordinal of the day after a date is the next ordinal, so the day of
    the week moves on by one, Sunday (6) being followed by Monday (0);
    1 January of year 1 is a Monday. *)
Lemma toordinal_next_day (y m d : Z) :
  possible_date y m d ->
  let '(y', m', d') := next_day y m d in
  possible_date y' m' d' /\ toordinal y' m' d' = toordinal y m d + 1.
Proof.
  intros (Hy & Hm & Hd). unfold next_day.
  destruct (Z.ltb_spec d (month_length y m)) as [L|L].
  - split; [unfold possible_date; lia|unfold toordinal; lia].
  - assert (d = month_length y m) by lia. subst d.
    destruct (Z.ltb_spec m 12) as [M|M].
    + split.
      * pose proof (month_length_bounds y (m + 1)).
        unfold possible_date. lia.
      * unfold toordinal. rewrite days_before_next_month by lia.
        lia.
    + assert (m = 12) by lia. subst m. split.
      * pose proof (month_length_bounds (y + 1) 1).
        unfold possible_date. lia.
      * unfold toordinal. rewrite days_before_next_year.
        change (days_before_month (y + 1) 1) with 0. lia.
Qed.

Lemma weekday_next_day (y m d : Z) :
  possible_date y m d ->
  let '(y', m', d') := next_day y m d in
  weekday y' m' d' = (weekday y m d + 1) mod 7.
Proof.
  intros H. pose proof (toordinal_next_day y m d H) as N.
  destruct (next_day y m d) as [[y' m'] d']. destruct N as [_ N].
  unfold weekday. rewrite N. Z.div_mod_to_equations. lia.
Qed.

Lemma weekday_range (y m d : Z) : 0 <= weekday y m d <= 6.
Proof.
  unfold weekday. Z.div_mod_to_equations. lia.
Qed.

Lemma weekday_origin : weekday 1 1 1 = 0.
Proof.
  reflexivity.
Qed.

(** ** Counting the days *)

Lemma days_before_year_counts (n : nat) :
  days_before_year (Z.of_nat n + 1) = days_of_years n.
Proof.
  induction n as [|n IH]; [reflexivity|].
  cbn [days_of_years]. rewrite <- IH.
  replace (Z.of_nat (S n) + 1) with ((Z.of_nat n + 1) + 1) by lia.
  rewrite days_before_next_year.
  replace (Z.of_nat (S n)) with (Z.of_nat n + 1) by lia.
  unfold year_length, days_before_month, month_length.
  rewrite is_leap_leap_year. simpl.
  destruct (leap_year (Z.of_nat n + 1)); lia.
Qed.

Lemma days_before_month_counts (y m : Z) :
  1 <= m <= 12 -> days_before_month y m = days_of_months y (Z.to_nat (m - 1)).
Proof.
  intros H. unfold days_before_month. rewrite is_leap_leap_year.
  enumerate m 1 12%nat; simpl; unfold month_length; simpl;
    destruct (leap_year y); reflexivity.
Qed.

(** The day of the week that [weekday] computes is the one found by
    counting the days from Monday 1 January of year 1. *)
Lemma weekday_day_of_week (y m d : Z) :
  1 <= y -> 1 <= m <= 12 -> weekday y m d = day_of_week y m d.
Proof.
  intros Hy Hm. unfold weekday, day_of_week, toordinal, days_since_epoch.
  rewrite <- (days_before_month_counts y m Hm).
  rewrite <- days_before_year_counts.
  replace (Z.of_nat (Z.to_nat (y - 1)) + 1) with y by lia.
  Z.div_mod_to_equations. lia.
Qed.

(** ** [get_date_features] *)

Lemma get_date_features_raises (s : text) (e : exn) :
  get_date_features s = Raise e -> e = ValueError.
Proof.
  unfold get_date_features, strptime.
  destruct (format_regex s) as [|[[[dt mt] yt] [|c rest]] l]; simpl;
    try congruence.
  destruct (check_date_fields (int yt) (int mt) (int dt)); simpl; congruence.
Qed.

Lemma year_text_bound (yt : text) (y : Z) : year_text yt y -> 0 <= y <= 9999.
Proof.
  intros (c1 & c2 & c3 & c4 & a & b & c & d & _ & H1 & H2 & H3 & H4 & ->).
  apply digit_value_range in H1, H2, H3, H4. lia.
Qed.

(** The features in the words of [weekday]. *)
Lemma get_date_features_weekday (s : text) (f : DateFeatures) :
  get_date_features s = Ok f <->
  exists d m y : Z,
    matches_format s d m y /\ possible_date y m d
    /\ f = mkFeatures y m d (weekday y m d).
Proof.
  split.
  - unfold get_date_features, strptime.
    destruct (format_regex s) as [|[[[dt mt] yt] [|c rest]] l] eqn:E; simpl;
      try discriminate.
    destruct (check_date_fields (int yt) (int mt) (int dt)) eqn:C; simpl;
      [|discriminate].
    intros [= <-].
    assert (Hin : In (dt, mt, yt, []) (format_regex s))
      by (rewrite E; left; reflexivity).
    apply format_regex_sound in Hin.
    destruct Hin as (Hs & Dd & Dm & Dy).
    rewrite app_nil_r in Hs.
    apply check_date_fields_possible in C. destruct C as [P _].
    exists (int dt), (int mt), (int yt). split; [|split; [exact P|reflexivity]].
    exists dt, mt, yt. auto.
  - intros (d & m & y & (dt & mt & yt & -> & Dd & Dm & Dy) & P & ->).
    unfold get_date_features, strptime.
    rewrite (format_regex_complete dt mt yt d m y Dd Dm Dy).
    destruct (re_d_complete dt d Dd) as [-> _].
    destruct (re_m_complete mt m Dm) as [-> _].
    destruct (re_Y_complete yt y Dy) as [-> _].
    assert (C : check_date_fields y m d = true).
    { apply check_date_fields_possible. split; [exact P|].
      apply (year_text_bound _ _ Dy). }
    rewrite C. reflexivity.
Qed.

Lemma get_date_features_ok (s : text) (f : DateFeatures) :
  get_date_features s = Ok f <->
  exists d m y : Z,
    matches_format s d m y /\ possible_date y m d
    /\ f = mkFeatures y m d (day_of_week y m d).
Proof.
  rewrite get_date_features_weekday. split;
    intros (d & m & y & Hm & P & ->); exists d, m, y;
    (split; [exact Hm|]; split; [exact P|]);
    destruct P as (Hy & Hmo & _);
    rewrite (weekday_day_of_week y m d Hy Hmo); reflexivity.
Qed.

(** C8.  [get_date_features] on a day-month-year string succeeds exactly
    when the string matches the format and denotes a date of the calendar,
    and then produces the year, month and day of that date with its day of
    the week, counted from Monday 1 January of year 1; on every other string
    it fails, with the [ValueError] of [strptime], which is the invalid-date
    error of this program.  29-02-2024 is accepted (a Thursday) and
    29-02-2023 is rejected; a year in the digits of another script is read
    as well. *)
Theorem date_features_iff_possible_date :
  (forall (s : text) (f : DateFeatures),
      get_date_features s = Ok f <->
      exists d m y : Z,
        matches_format s d m y /\ possible_date y m d
        /\ f = mkFeatures y m d (day_of_week y m d))
  /\ (forall s : text,
         (forall d m y : Z, ~ (matches_format s d m y /\ possible_date y m d)) ->
         get_date_features s = Raise ValueError)
  /\ get_date_features (code_points "29-02-2024")
     = Ok (mkFeatures 2024 2 29 3)
  /\ get_date_features (code_points "29-02-2023") = Raise ValueError
  /\ get_date_features (code_points "15-03-٢٠٢٤")
     = Ok (mkFeatures 2024 3 15 4).
Proof.
  split; [exact get_date_features_ok|].
  split; [|repeat split; vm_compute; reflexivity].
  intros s Hnot.
  destruct (get_date_features s) as [f|e] eqn:E.
  - exfalso. apply get_date_features_ok in E.
    destruct E as (d & m & y & Hm & Hp & _). exact (Hnot d m y (conj Hm Hp)).
  - apply get_date_features_raises in E. subst e. reflexivity.
Qed.

(** * Further properties of the code *)

(** ** [calculate_sub_index]: what it can return *)

Lemma dict_get_missing {V : Type} (d : dict V) (k : string) :
  ~ In k (map fst d) -> dict_get d k = Raise (KeyError k).
Proof.
  induction d as [|[k' v'] d IH]; intros Hk; [reflexivity|].
  simpl in *. destruct (String.eqb_spec k k') as [->|_].
  - exfalso. apply Hk. left. reflexivity.
  - apply IH. intros H. apply Hk. right. exact H.
Qed.

Lemma tables_within_scale (pollutant : string) (bps : list breakpoint)
  (b : breakpoint) :
  dict_get breakpoints pollutant = Ok bps -> In b bps ->
  0 <= bp_index_low b /\ bp_index_high b <= 500.
Proof.
  intros Htab Hin.
  assert (Hall : forallb (fun b => (0 <=? bp_index_low b)
                                   && (bp_index_high b <=? 500)) bps = true)
    by (each_table Htab; vm_compute; reflexivity).
  rewrite forallb_forall in Hall. specialize (Hall b Hin).
  apply andb_true_iff in Hall. rewrite !Z.leb_le in Hall. exact Hall.
Qed.

Lemma scan_bounds (bps : list breakpoint) (value : pyfloat) :
  ordered bps = true -> ends_exact bps = true ->
  0 <= scan bps value <= 500.
Proof.
  intros Hord Hends.
  destruct value as [v| | |];
    try (rewrite scan_outside;
         [lia|intros b _; apply inside_not_finite; discriminate]).
  destruct (scan_value bps v Hord) as [[E _]|(b & Hb & Hin & E)];
    rewrite E; [lia|].
  apply inside_Fin in Hin.
  pose proof (range_bounds _ _ _ Hord Hends Hb Hin).
  destruct (ends_exact_In _ _ Hends Hb) as (_ & _ & L & U). lia.
Qed.

(** X1.  For each of the seven pollutants and every float, finite or not,
    [calculate_sub_index] returns an integer between 0 and 500. *)
Theorem sub_index_within_scale :
  forall (pollutant : string) (value : pyfloat),
    In pollutant pollutants ->
    exists i : Z, calculate_sub_index pollutant value = Ok i /\ 0 <= i <= 500.
Proof.
  intros pollutant value Hp.
  destruct (proj1 (pollutant_has_table pollutant) Hp) as [bps Htab].
  exists (scan bps value). split.
  - apply calculate_sub_index_scan, Htab.
  - apply scan_bounds;
      [eapply tables_ordered|eapply tables_ends_exact]; eassumption.
Qed.

Lemma sub_index_within_scale_witness :
  exists i : Z, calculate_sub_index "CO" NaN = Ok i /\ 0 <= i <= 500.
Proof.
  apply (sub_index_within_scale "CO" NaN). simpl. tauto.
Defined.

(** X2.  [calculate_sub_index] raises exactly for a name that is not one of
    the seven pollutants, and then it is the [KeyError] of that name,
    whatever the value. *)
Theorem sub_index_key_error :
  forall (pollutant : string) (value : pyfloat),
    (In pollutant pollutants ->
     exists i : Z, calculate_sub_index pollutant value = Ok i)
    /\ (~ In pollutant pollutants ->
        calculate_sub_index pollutant value = Raise (KeyError pollutant)).
Proof.
  intros pollutant value. split.
  - intros Hp.
    destruct (proj1 (pollutant_has_table pollutant) Hp) as [bps Htab].
    exists (scan bps value). apply calculate_sub_index_scan, Htab.
  - intros Hp. unfold calculate_sub_index.
    rewrite dict_get_missing; [reflexivity|exact Hp].
Qed.

(** ** [calculate_sub_index]: inside a range *)

(** X3.  For every pollutant and every range of its table,
    [calculate_sub_index] at the lower end of the range returns the
    indexLow of that range. *)
Theorem lower_boundary_gives_index_low :
  forall (pollutant : string) (bps : list breakpoint) (b : breakpoint),
    dict_get breakpoints pollutant = Ok bps -> In b bps ->
    calculate_sub_index pollutant (Fin (bp_low b)) = Ok (bp_index_low b).
Proof.
  intros pollutant bps b Htab Hb.
  pose proof (tables_ordered _ _ Htab) as Hord.
  destruct (ordered_proper _ _ Hord Hb) as [Hp Hr].
  rewrite (calculate_sub_index_scan _ _ _ Htab). f_equal.
  rewrite (scan_ordered bps b (bp_low b) Hord Hb)
    by (apply inside_Fin; lra).
  exact (proj1 (ends_exact_In _ _ (tables_ends_exact _ _ Htab) Hb)).
Qed.

Lemma lower_boundary_gives_index_low_witness :
  calculate_sub_index "CO" (Fin (float_literal 2.1)) = Ok 101.
Proof.
  apply (lower_boundary_gives_index_low
           "CO" _ (bp (float_literal 2.1) (float_literal 10.0) 101 200)
           eq_refl).
  right. right. left. reflexivity.
Defined.

(** X4.  A concentration inside a range of the pollutant's table gets a
    sub-index inside the index interval of that range. *)
Theorem sub_index_inside_index_interval :
  forall (pollutant : string) (bps : list breakpoint) (b : breakpoint) (v : Q),
    dict_get breakpoints pollutant = Ok bps -> In b bps ->
    inside b (Fin v) = true ->
    exists i : Z,
      calculate_sub_index pollutant (Fin v) = Ok i
      /\ bp_index_low b <= i <= bp_index_high b.
Proof.
  intros pollutant bps b v Htab Hb Hv.
  pose proof (tables_ordered _ _ Htab) as Hord.
  exists (interpolate b v). split.
  - rewrite (calculate_sub_index_scan _ _ _ Htab).
    rewrite (scan_ordered bps b v Hord Hb Hv). reflexivity.
  - apply (range_bounds bps); try assumption.
    + eapply tables_ends_exact; eassumption.
    + apply inside_Fin, Hv.
Qed.

Lemma sub_index_inside_index_interval_witness :
  exists i : Z,
    calculate_sub_index "CO" (Fin (float_literal 10.1)) = Ok i
    /\ 201 <= i <= 300.
Proof.
  apply (sub_index_inside_index_interval
           "CO" _ (bp (float_literal 10.1) (float_literal 17.0) 201 300)
           (float_literal 10.1) eq_refl).
  - right. right. right. left. reflexivity.
  - vm_compute. reflexivity.
Defined.

(** ** [calculate_sub_index]: the gaps between the ranges *)

Lemma in_gap_cons (b b' : breakpoint) (rest : list breakpoint) (v : Q) :
  in_gap (b :: b' :: rest) v = true <->
  ((bp_high b < v)%Q /\ (v < bp_low b')%Q) \/ in_gap (b' :: rest) v = true.
Proof.
  change (in_gap (b :: b' :: rest) v)
    with ((negb (Qle_bool v (bp_high b)) && negb (Qle_bool (bp_low b') v))
          || in_gap (b' :: rest) v).
  rewrite orb_true_iff, andb_true_iff, !negb_true_iff, !Qle_bool_false.
  tauto.
Qed.

Lemma in_gap_above_head (rest : list breakpoint) :
  forall (b : breakpoint) (v : Q),
    ordered (b :: rest) = true -> in_gap (b :: rest) v = true ->
    (bp_high b < v)%Q.
Proof.
  induction rest as [|b1 rest IH]; intros b v Hord Hgap; [discriminate Hgap|].
  apply in_gap_cons in Hgap. destruct Hgap as [[H _]|Hgap]; [exact H|].
  pose proof (ordered_tail _ _ Hord) as Htail.
  specialize (IH b1 v Htail Hgap).
  destruct (ordered_later _ _ _ Hord (or_introl eq_refl)) as [L _].
  destruct (ordered_head _ _ Htail) as [P _]. lra.
Qed.

Lemma in_gap_unmatched (bps : list breakpoint) (v : Q) :
  ordered bps = true -> in_gap bps v = true ->
  forall b, In b bps -> inside b (Fin v) = false.
Proof.
  induction bps as [|b0 rest IH]; intros Hord Hgap b Hb; [destruct Hb|].
  destruct rest as [|b1 rest]; [discriminate Hgap|].
  pose proof (in_gap_above_head _ _ _ Hord Hgap) as Habove.
  pose proof (ordered_tail _ _ Hord) as Htail.
  destruct (inside b (Fin v)) eqn:E; [exfalso|reflexivity].
  apply inside_Fin in E.
  destruct Hb as [->|Hb]; [lra|].
  apply in_gap_cons in Hgap. destruct Hgap as [[_ Hlow]|Hgap].
  - destruct Hb as [->|Hb]; [lra|].
    destruct (ordered_later _ _ _ Htail Hb) as [L _].
    destruct (ordered_head _ _ Htail) as [P _]. lra.
  - specialize (IH Htail Hgap b Hb).
    assert (inside b (Fin v) = true) by (apply inside_Fin; exact E).
    congruence.
Qed.

Lemma last_cons {A : Type} (rest : list A) :
  forall a b : A, last (a :: rest) b = last rest a.
Proof.
  induction rest as [|c rest IH]; intros a b; [reflexivity|].
  change (last (a :: c :: rest) b) with (last (c :: rest) b).
  rewrite !IH. reflexivity.
Qed.

Lemma matched_or_in_gap (rest : list breakpoint) :
  forall (b : breakpoint) (v : Q),
    (bp_low b <= v <= bp_high (last rest b))%Q ->
    (exists b', In b' (b :: rest) /\ inside b' (Fin v) = true)
    \/ in_gap (b :: rest) v = true.
Proof.
  induction rest as [|b1 rest IH]; intros b v Hv.
  - left. exists b. split; [left; reflexivity|]. apply inside_Fin. exact Hv.
  - destruct (Qlt_le_dec (bp_high b) v) as [Hh|Hh].
    + destruct (Qlt_le_dec v (bp_low b1)) as [Hl|Hl].
      * right. apply in_gap_cons. left. split; assumption.
      * destruct (IH b1 v) as [(b' & Hb' & Hin)|Hgap].
        -- split; [exact Hl|]. destruct Hv as [_ Hv].
           rewrite last_cons in Hv. exact Hv.
        -- left. exists b'. split; [right; exact Hb'|exact Hin].
        -- right. apply in_gap_cons. right. exact Hgap.
    + left. exists b. split; [left; reflexivity|].
      apply inside_Fin. lra.
Qed.

Lemma tables_span (pollutant : string) (bps : list breakpoint) :
  dict_get breakpoints pollutant = Ok bps ->
  exists b rest,
    bps = b :: rest /\ (bp_low b == 0)%Q
    /\ (table_max bps == bp_high (last rest b))%Q.
Proof.
  intros Htab.
  each_table Htab; eexists; eexists; (split; [reflexivity|]);
    split; apply Qeq_bool_iff; vm_compute; reflexivity.
Qed.

(** X5.  Between 0 and the largest tabulated concentration of a pollutant,
    the concentrations that no range of the table contains are exactly those
    strictly between the upper end of one range and the lower end of the
    next; these get sub-index 0, and every other concentration of that span
    lies inside a range. *)
Theorem unmatched_exactly_in_gaps :
  forall (pollutant : string) (bps : list breakpoint) (v : Q),
    dict_get breakpoints pollutant = Ok bps ->
    (0 <= v <= table_max bps)%Q ->
    ((forall b, In b bps -> inside b (Fin v) = false) <-> in_gap bps v = true)
    /\ (in_gap bps v = true -> calculate_sub_index pollutant (Fin v) = Ok 0)
    /\ (in_gap bps v = false ->
        exists b, In b bps /\ inside b (Fin v) = true).
Proof.
  intros pollutant bps v Htab Hv.
  pose proof (tables_ordered _ _ Htab) as Hord.
  destruct (tables_span _ _ Htab) as (b0 & rest & Ebps & Hlow & Hmax).
  assert (Hcov : (exists b', In b' bps /\ inside b' (Fin v) = true)
                 \/ in_gap bps v = true).
  { rewrite Ebps in Hv, Hmax |- *. apply matched_or_in_gap. lra. }
  split; [split|split].
  - intros Hnone. destruct Hcov as [(b' & Hb' & Hin)|Hgap]; [|exact Hgap].
    rewrite (Hnone b' Hb') in Hin. discriminate Hin.
  - apply in_gap_unmatched; assumption.
  - intros Hgap. apply (calculate_sub_index_outside _ _ _ Htab).
    apply in_gap_unmatched; assumption.
  - intros Hgap. destruct Hcov as [H|H]; [exact H|congruence].
Qed.

Lemma unmatched_exactly_in_gaps_witness :
  in_gap [bp 0 30 0 50; bp 31 60 51 100; bp 61 90 101 200;
          bp 91 120 201 300; bp 121 250 301 400; bp 251 500 401 500] 60.25
  = true
  /\ calculate_sub_index "PM2.5" (Fin 60.25) = Ok 0.
Proof.
  split; [reflexivity|].
  refine (proj1 (proj2 (unmatched_exactly_in_gaps "PM2.5" _ 60.25 eq_refl _))
                eq_refl).
  split; apply Qle_bool_iff; reflexivity.
Defined.

Lemma unit_steps_no_gap (bps : list breakpoint) (n : Z) :
  unit_steps bps = true -> in_gap bps (inject_Z n) = false.
Proof.
  induction bps as [|b rest IH]; intros Hunit; [reflexivity|].
  destruct rest as [|b1 rest]; [reflexivity|].
  change (unit_steps (b :: b1 :: rest))
    with (Qeq_bool (bp_low b) (inject_Z (Qfloor (bp_low b)))
          && Qeq_bool (bp_high b) (inject_Z (Qfloor (bp_high b)))
          && Qeq_bool (bp_low b1) (bp_high b + 1)
          && unit_steps (b1 :: rest)) in Hunit.
  rewrite !andb_true_iff, !Qeq_bool_iff in Hunit.
  destruct Hunit as [[[_ Hh] Hl] Hrest].
  destruct (in_gap (b :: b1 :: rest) (inject_Z n)) eqn:E; [exfalso|reflexivity].
  apply in_gap_cons in E. destruct E as [[H1 H2]|E].
  - rewrite Hh in H1. rewrite <- Zlt_Qlt in H1.
    assert (H3 : (inject_Z (Qfloor (bp_high b) + 1) <= inject_Z n)%Q)
      by (rewrite <- Zle_Qle; lia).
    rewrite inject_Z_plus in H3. change (inject_Z 1) with 1%Q in H3.
    rewrite Hl, Hh in H2. lra.
  - rewrite (IH Hrest) in E. discriminate E.
Qed.

Lemma whole_number_tables (pollutant : string) (bps : list breakpoint) :
  dict_get breakpoints pollutant = Ok bps -> pollutant <> "CO" ->
  unit_steps bps = true.
Proof.
  intros Htab Hco.
  each_table Htab; try (vm_compute; reflexivity).
  exfalso. apply Hco. reflexivity.
Qed.

(** X6.  For the six pollutants other than CO, whose tables are written in
    whole numbers, every whole-number concentration from 0 to the largest
    tabulated one lies inside exactly one range of the table. *)
Theorem whole_concentrations_are_matched :
  forall (pollutant : string) (bps : list breakpoint) (n : Z),
    dict_get breakpoints pollutant = Ok bps -> pollutant <> "CO" ->
    0 <= n -> (inject_Z n <= table_max bps)%Q ->
    exists b, In b bps /\ inside b (Fin (inject_Z n)) = true
              /\ forall b', In b' bps ->
                            inside b' (Fin (inject_Z n)) = true -> b' = b.
Proof.
  intros pollutant bps n Htab Hco Hn Hmax.
  pose proof (tables_ordered _ _ Htab) as Hord.
  destruct (tables_span _ _ Htab) as (b0 & rest & Ebps & Hlow & Hspan).
  assert (Hv : (bp_low b0 <= inject_Z n <= bp_high (last rest b0))%Q).
  { assert (H0 : (inject_Z 0 <= inject_Z n)%Q)
      by (rewrite <- Zle_Qle; exact Hn).
    change (inject_Z 0) with 0%Q in H0. lra. }
  pose proof (unit_steps_no_gap bps n (whole_number_tables _ _ Htab Hco))
    as Hgap.
  destruct (matched_or_in_gap rest b0 (inject_Z n) Hv)
    as [(b & Hb & Hin)|H]; [|rewrite <- Ebps in H; congruence].
  rewrite <- Ebps in Hb. exists b. split; [exact Hb|split; [exact Hin|]].
  intros b' Hb' Hin'.
  exact (ranges_do_not_overlap _ _ _ _ _ Htab Hb' Hb Hin' Hin).
Qed.

Lemma whole_concentrations_are_matched_witness :
  exists b,
    In b [bp 0 40 0 50; bp 41 80 51 100; bp 81 180 101 200;
          bp 181 280 201 300; bp 281 400 301 400; bp 401 1000 401 500]
    /\ inside b (Fin (inject_Z 41)) = true
    /\ forall b',
        In b' [bp 0 40 0 50; bp 41 80 51 100; bp 81 180 101 200;
               bp 181 280 201 300; bp 281 400 301 400; bp 401 1000 401 500] ->
        inside b' (Fin (inject_Z 41)) = true -> b' = b.
Proof.
  apply (whole_concentrations_are_matched "NO2" _ 41 eq_refl).
  - discriminate.
  - lia.
  - apply Qle_bool_iff. reflexivity.
Defined.

(** ** [predict_aqi]: what a returned result looks like *)

Lemma sub_index_ok_bounds (pollutant : string) (value : pyfloat) (i : Z) :
  calculate_sub_index pollutant value = Ok i -> 0 <= i <= 500.
Proof.
  unfold calculate_sub_index.
  destruct (dict_get breakpoints pollutant) as [bps|e] eqn:Htab;
    [|discriminate].
  cbn [bind]. intros [= <-].
  apply scan_bounds;
    [eapply tables_ordered|eapply tables_ends_exact]; eassumption.
Qed.

Lemma predict_loop_ok_inv (models : dict (DateFeatures -> result pyfloat))
  (features : DateFeatures) (ps : list string) :
  forall acc out : dict pyfloat,
    predict_loop models ps features acc = Ok out ->
    forall p, In p ps -> exists v, model_returns models features p v.
Proof.
  induction ps as [|p0 ps IH]; intros acc out E p Hp; [destruct Hp|].
  simpl in E.
  destruct (dict_get models p0) as [m0|e0] eqn:E0; [|discriminate E].
  cbn [bind] in E.
  destruct (m0 features) as [v0|e1] eqn:E1; [|discriminate E].
  cbn [bind] in E.
  destruct Hp as [<-|Hp].
  - exists v0, m0. split; assumption.
  - eapply IH; eassumption.
Qed.

Lemma predict_aqi_ok_inv (models : dict (DateFeatures -> result pyfloat))
  (input_date : text) (r : dict pyfloat * dict Z * Z * string) :
  predict_aqi models input_date = Ok r ->
  exists features,
    get_date_features input_date = Ok features
    /\ forall p, In p pollutants ->
                 exists v, model_returns models features p v.
Proof.
  unfold predict_aqi. intros E.
  destruct (get_date_features input_date) as [features|e]; [|discriminate E].
  cbn [bind] in E. exists features. split; [reflexivity|].
  destruct (predict_loop models pollutants features []) as [out|e] eqn:L;
    [|discriminate E].
  eapply predict_loop_ok_inv; eassumption.
Qed.

Lemma Forall2_sub_keys (predicted : dict pyfloat) (subs : dict Z) :
  Forall2 (fun pv pi => fst pi = fst pv
             /\ calculate_sub_index (fst pv) (snd pv) = Ok (snd pi))
          predicted subs ->
  map fst subs = map fst predicted
  /\ Forall (fun i => 0 <= i <= 500) (values subs).
Proof.
  induction 1 as [|pv pi predicted subs [E1 E2] _ [IH1 IH2]]; simpl.
  - split; [reflexivity|constructor].
  - rewrite E1, IH1. split; [reflexivity|].
    constructor; [|exact IH2]. eapply sub_index_ok_bounds; eassumption.
Qed.

(** X7.  Whatever [predict_aqi] returns has this shape: the predictions and
    the sub-indices are keyed by the seven pollutants in the order of
    [pollutants], every sub-index and the AQI lie between 0 and 500, and the
    category is the one the ladder gives the AQI. *)
Theorem predict_aqi_result_shape :
  forall (models : dict (DateFeatures -> result pyfloat))
         (input_date : text) (predicted : dict pyfloat)
         (sub_indices : dict Z) (aqi : Z) (category : string),
    predict_aqi models input_date
    = Ok (predicted, sub_indices, aqi, category) ->
    map fst predicted = pollutants
    /\ map fst sub_indices = pollutants
    /\ Forall (fun i => 0 <= i <= 500) (values sub_indices)
    /\ 0 <= aqi <= 500
    /\ category = category_of aqi.
Proof.
  intros models input_date predicted subs aqi category E.
  destruct (predict_aqi_ok_inv _ _ _ E) as (features & Hdate & Hret).
  destruct (predict_aqi_returns models input_date features Hdate Hret)
    as (predicted' & subs' & aqi' & E' & Fp & Fs & Hin & _).
  rewrite E in E'. injection E' as <- <- <- ->.
  pose proof (Forall2_keys _ _ _ Fp) as Kp.
  destruct (Forall2_sub_keys _ _ Fs) as [Ks Hb].
  split; [exact Kp|]. split; [rewrite Ks; exact Kp|].
  split; [exact Hb|]. split; [|reflexivity].
  rewrite Forall_forall in Hb. apply Hb, Hin.
Qed.

Lemma predict_aqi_result_shape_witness :
  map fst faulty_outputs_predicted = pollutants
  /\ map fst faulty_outputs_sub_indices = pollutants
  /\ Forall (fun i => 0 <= i <= 500) (values faulty_outputs_sub_indices)
  /\ 0 <= 150 <= 500
  /\ "Moderate" = category_of 150.
Proof.
  exact (predict_aqi_result_shape (constant_models faulty_outputs)
           (code_points "15-03-2024") faulty_outputs_predicted faulty_outputs_sub_indices
           150 "Moderate" eq_refl).
Defined.

Lemma category_good_iff (aqi : Z) : category_of aqi = "Good" <-> aqi <= 50.
Proof.
  ladder aqi; match goal with H : category_of _ = _ |- _ => rewrite H end;
    split; intros; try lia; try discriminate; reflexivity.
Qed.

Lemma category_severe_iff (aqi : Z) :
  category_of aqi = "Severe" <-> 400 < aqi.
Proof.
  ladder aqi; match goal with H : category_of _ = _ |- _ => rewrite H end;
    split; intros; try lia; try discriminate; reflexivity.
Qed.

(** X8.  The AQI that [predict_aqi] returns is decided by the worst
    pollutant: it stays at or below a level exactly when every sub-index
    does.  So the category is Good exactly when every pollutant has a
    sub-index of at most 50, and Severe exactly when some pollutant has one
    above 400. *)
Theorem aqi_follows_worst_pollutant :
  forall (models : dict (DateFeatures -> result pyfloat))
         (input_date : text) (predicted : dict pyfloat)
         (sub_indices : dict Z) (aqi : Z) (category : string),
    predict_aqi models input_date
    = Ok (predicted, sub_indices, aqi, category) ->
    (forall t : Z, aqi <= t <-> forall p i, In (p, i) sub_indices -> i <= t)
    /\ (category = "Good" <-> forall p i, In (p, i) sub_indices -> i <= 50)
    /\ (category = "Severe" <-> exists p i, In (p, i) sub_indices /\ 400 < i).
Proof.
  intros models input_date predicted subs aqi category E.
  destruct (predict_aqi_ok_inv _ _ _ E) as (features & Hdate & Hret).
  destruct (predict_aqi_returns models input_date features Hdate Hret)
    as (predicted' & subs' & aqi' & E' & _ & _ & Hin & Hub).
  rewrite E in E'. injection E' as <- <- <- ->.
  assert (Hmem : exists p, In (p, aqi) subs).
  { unfold values in Hin. apply in_map_iff in Hin.
    destruct Hin as ([p i] & Ei & Hpi). simpl in Ei. subst i.
    exists p. exact Hpi. }
  assert (Hall : forall t, aqi <= t <-> forall p i, In (p, i) subs -> i <= t).
  { intros t. split.
    - intros Ht p i Hpi.
      assert (i <= aqi) by (apply Hub; apply (in_map snd) in Hpi; exact Hpi).
      lia.
    - intros H. destruct Hmem as [p Hp]. exact (H p aqi Hp). }
  split; [exact Hall|]. split.
  - rewrite category_good_iff. apply Hall.
  - rewrite category_severe_iff. split.
    + intros H. destruct Hmem as [p Hp]. exists p, aqi. split; assumption.
    + intros (p & i & Hpi & Hi).
      assert (i <= aqi) by (apply Hub; apply (in_map snd) in Hpi; exact Hpi).
      lia.
Qed.

Lemma aqi_follows_worst_pollutant_witness :
  (forall t : Z,
      150 <= t <-> forall p i, In (p, i) faulty_outputs_sub_indices -> i <= t)
  /\ ("Moderate" = "Good"
      <-> forall p i, In (p, i) faulty_outputs_sub_indices -> i <= 50)
  /\ ("Moderate" = "Severe"
      <-> exists p i, In (p, i) faulty_outputs_sub_indices /\ 400 < i).
Proof.
  exact (aqi_follows_worst_pollutant (constant_models faulty_outputs)
           (code_points "15-03-2024") faulty_outputs_predicted faulty_outputs_sub_indices
           150 "Moderate" eq_refl).
Defined.

(** ** [predict_aqi]: how it fails *)

(** X9.  Once the date has parsed, [predict_aqi] fails with the error of the
    first pollutant, in the order of [pollutants], whose model is missing or
    raises: the [KeyError] of that pollutant when [models] has no entry for
    it, otherwise the exception its model raised.  What the models of the
    later pollutants would do plays no part. *)
Theorem first_failing_pollutant_decides :
  forall (models : dict (DateFeatures -> result pyfloat))
         (input_date : text) (features : DateFeatures)
         (before after : list string) (p : string),
    get_date_features input_date = Ok features ->
    pollutants = (before ++ p :: after)%list ->
    (forall q, In q before -> exists v, model_returns models features q v) ->
    (~ In p (map fst models) ->
     predict_aqi models input_date = Raise (KeyError p))
    /\ (forall e, model_raises models features p e ->
                  predict_aqi models input_date = Raise e).
Proof.
  intros models input_date features before after p Hdate Hsplit Hbefore.
  split.
  - intros Hmiss. unfold predict_aqi. rewrite Hdate, Hsplit. cbn [bind].
    rewrite (predict_loop_first_failure models features p after (KeyError p)
               before Hbefore); [reflexivity|].
    left. apply dict_get_missing, Hmiss.
  - intros e Hraise. unfold predict_aqi. rewrite Hdate, Hsplit. cbn [bind].
    rewrite (predict_loop_first_failure models features p after e
               before Hbefore); [reflexivity|].
    right. exact Hraise.
Qed.

Lemma first_failing_pollutant_decides_witness :
  predict_aqi raising_models (code_points "15-03-2024") = Raise (ModelRaised "predict")
  /\ predict_aqi [] (code_points "15-03-2024") = Raise (KeyError "PM2.5").
Proof.
  split.
  - apply (proj2 (first_failing_pollutant_decides
                    raising_models (code_points "15-03-2024") (mkFeatures 2024 3 15 4)
                    ["PM2.5"; "PM10"] ["NH3"; "SO2"; "CO"; "O3"] "NO2"
                    eq_refl eq_refl
                    (fun q Hq =>
                       match Hq with
                       | or_introl E =>
                           ex_intro _ (Fin 24)
                             (ex_intro _ (fun _ => Ok (Fin 24))
                                (conj (f_equal (fun k => dict_get raising_models k) (eq_sym E))
                                      eq_refl))
                       | or_intror (or_introl E) =>
                           ex_intro _ (Fin 60)
                             (ex_intro _ (fun _ => Ok (Fin 60))
                                (conj (f_equal (fun k => dict_get raising_models k) (eq_sym E))
                                      eq_refl))
                       | or_intror (or_intror F) => False_ind _ F
                       end))).
    eexists. split; reflexivity.
  - apply (proj1 (first_failing_pollutant_decides
                    [] (code_points "15-03-2024") (mkFeatures 2024 3 15 4)
                    [] ["PM10"; "NO2"; "NH3"; "SO2"; "CO"; "O3"] "PM2.5"
                    eq_refl eq_refl (fun q Hq => False_ind _ Hq))).
    intros H. exact H.
Defined.

(** X10.  A string that does not match the day-month-year format, or
    matches it without denoting a date of the calendar, makes [predict_aqi]
    fail with [ValueError] whatever [models] holds: the date is read before
    any model is looked up, so not even a missing or raising model changes
    the error. *)
Theorem rejected_date_fails_first :
  forall (models : dict (DateFeatures -> result pyfloat))
         (input_date : text),
    (forall d m y : Z,
        ~ (matches_format input_date d m y /\ possible_date y m d)) ->
    predict_aqi models input_date = Raise ValueError.
Proof.
  intros models input_date Hnot. unfold predict_aqi.
  destruct (get_date_features input_date) as [f|e] eqn:E.
  - exfalso. apply get_date_features_ok in E.
    destruct E as (d & m & y & Hm & Hp & _). exact (Hnot d m y (conj Hm Hp)).
  - apply get_date_features_raises in E. subst e. reflexivity.
Qed.

Lemma rejected_date_fails_first_witness :
  predict_aqi [] (code_points "31-04-2024") = Raise ValueError
  /\ predict_aqi (constant_models sample_outputs) (code_points "31-04-2024")
     = Raise ValueError.
Proof.
  assert (Hnot : forall d m y : Z,
             ~ (matches_format (code_points "31-04-2024") d m y /\ possible_date y m d)).
  { intros d m y [Hm Hp].
    assert (E : get_date_features (code_points "31-04-2024")
                = Ok (mkFeatures y m d (day_of_week y m d))).
    { apply get_date_features_ok. exists d, m, y. auto. }
    change (get_date_features (code_points "31-04-2024"))
      with (@Raise DateFeatures ValueError) in E.
    discriminate E. }
  split; apply rejected_date_fails_first; exact Hnot.
Defined.

(** ** [predict_aqi]: what it depends on *)

Lemma predict_loop_same_outcome
  (models1 models2 : dict (DateFeatures -> result pyfloat))
  (features : DateFeatures) (ps : list string) :
  (forall p, In p ps -> same_outcome features models1 models2 p) ->
  forall acc,
    predict_loop models1 ps features acc = predict_loop models2 ps features acc.
Proof.
  induction ps as [|p ps IH]; intros Hsame acc; [reflexivity|].
  pose proof (Hsame p (or_introl eq_refl)) as Hp.
  unfold same_outcome in Hp. simpl.
  destruct (dict_get models1 p) as [m1|e1], (dict_get models2 p) as [m2|e2];
    try contradiction; cbn [bind].
  - rewrite Hp. destruct (m2 features) as [v|e]; cbn [bind]; [|reflexivity].
    apply IH. intros q Hq. apply Hsame. right. exact Hq.
  - rewrite Hp. reflexivity.
Qed.

(** X11.  [predict_aqi] looks at [models] only through the entries of the
    seven pollutants, applied to the features of the date: two dictionaries
    that give the same outcome for each pollutant give the same result,
    whatever else they hold. *)
Theorem predict_aqi_uses_only_pollutant_models :
  forall (models1 models2 : dict (DateFeatures -> result pyfloat))
         (input_date : text),
    (forall features p,
        get_date_features input_date = Ok features -> In p pollutants ->
        same_outcome features models1 models2 p) ->
    predict_aqi models1 input_date = predict_aqi models2 input_date.
Proof.
  intros models1 models2 input_date Hsame. unfold predict_aqi.
  destruct (get_date_features input_date) as [features|e]; [|reflexivity].
  cbn [bind].
  rewrite (predict_loop_same_outcome models1 models2 features pollutants);
    [reflexivity|].
  intros p Hp. apply Hsame; [reflexivity|exact Hp].
Qed.

Lemma predict_aqi_uses_only_pollutant_models_witness :
  predict_aqi (constant_models sample_outputs) (code_points "15-03-2024")
  = predict_aqi models_with_spare (code_points "15-03-2024").
Proof.
  apply (predict_aqi_uses_only_pollutant_models
           (constant_models sample_outputs) models_with_spare (code_points "15-03-2024")).
  intros features p _ Hp. simpl in Hp.
  repeat (destruct Hp as [<-|Hp]; [reflexivity|]). destruct Hp.
Defined.

(** ** [get_date_features]: what it returns and what it refuses *)

Lemma day_text_length (dt : text) (d : Z) :
  day_text dt d -> (1 <= List.length dt <= 2)%nat.
Proof.
  intros [_ [(c & -> & _)|[_ [->| ->]]]]; simpl; lia.
Qed.

Lemma month_text_length (mt : text) (m : Z) :
  month_text mt m -> (1 <= List.length mt <= 2)%nat.
Proof.
  intros [_ [->|[_ ->]]]; simpl; lia.
Qed.

Lemma year_text_length (yt : text) (y : Z) :
  year_text yt y -> List.length yt = 4%nat.
Proof.
  intros (c1 & c2 & c3 & c4 & a & b & c & d & -> & _). reflexivity.
Qed.

(** X12.  The features of an accepted date string are in range: the year
    from 1 to 9999, the month from 1 to 12, the day from 1 to the length of
    that month, the day of the week from 0 to 6; and an accepted string has
    between 8 and 10 characters. *)
Theorem date_features_in_range :
  forall (s : text) (f : DateFeatures),
    get_date_features s = Ok f ->
    1 <= Year f <= 9999
    /\ 1 <= Month f <= 12
    /\ 1 <= Day f <= month_length (Year f) (Month f)
    /\ Day f <= 31
    /\ 0 <= DayOfWeek f <= 6
    /\ (8 <= List.length s <= 10)%nat.
Proof.
  intros s f E. apply get_date_features_weekday in E.
  destruct E as (d & m & y & (dt & mt & yt & -> & Dd & Dm & Dy) & P & ->).
  destruct P as (Py & Pm & Pd). simpl.
  pose proof (year_text_length _ _ Dy) as Ly.
  pose proof (year_text_bound _ _ Dy) as Hy.
  pose proof (day_text_length _ _ Dd) as Ld.
  pose proof (month_text_length _ _ Dm) as Lm.
  pose proof (month_length_bounds y m) as Hl.
  pose proof (weekday_range y m d) as Hw.
  repeat split; try lia;
    rewrite length_app; cbn [List.length]; rewrite length_app;
    cbn [List.length]; lia.
Qed.

Lemma date_features_in_range_witness :
  1 <= 2024 <= 9999 /\ 1 <= 2 <= 12 /\ 1 <= 29 <= month_length 2024 2
  /\ 29 <= 31 /\ 0 <= 3 <= 6
  /\ (8 <= List.length (code_points "29-02-2024") <= 10)%nat.
Proof.
  exact (date_features_in_range (code_points "29-02-2024")
           (mkFeatures 2024 2 29 3) eq_refl).
Defined.

Lemma ascii_digit_not_dash (n : Z) :
  0 <= n <= 9 -> is_char "-" (ascii_digit n) = false.
Proof.
  intros H. apply (digit_is_not "-" _ n); [reflexivity|].
  apply digit_value_ascii, H.
Qed.

Lemma day_text_no_dash (dt : text) (d : Z) :
  day_text dt d -> no_dash dt = true.
Proof.
  intros [Hd [(c & -> & Hc & _)|[H9 [->| ->]]]]; cbn [no_dash].
  - rewrite ascii_digit_not_dash by (Z.div_mod_to_equations; lia).
    rewrite (digit_is_not "-" c _ eq_refl Hc). reflexivity.
  - rewrite ascii_digit_not_dash by lia. reflexivity.
  - rewrite ascii_digit_not_dash by lia. reflexivity.
Qed.

Lemma month_text_no_dash (mt : text) (m : Z) :
  month_text mt m -> no_dash mt = true.
Proof.
  intros [Hm [->|[H9 ->]]]; cbn [no_dash];
    rewrite !ascii_digit_not_dash by (Z.div_mod_to_equations; lia);
    reflexivity.
Qed.

Lemma split_at_dash (a : text) :
  forall a' r r' : text,
    no_dash a = true -> no_dash a' = true ->
    (a ++ char "-" :: r)%list = (a' ++ char "-" :: r')%list ->
    a = a' /\ r = r'.
Proof.
  induction a as [|c a IH]; intros a' r r' Ha Ha' E.
  - destruct a' as [|c' a']; simpl in *.
    + injection E as E. split; [reflexivity|exact E].
    + injection E as E1 E2. subst c'. discriminate Ha'.
  - destruct a' as [|c' a']; simpl in *.
    + injection E as E1 E2. subst c. discriminate Ha.
    + injection E as E1 E2. subst c'.
      apply andb_true_iff in Ha. apply andb_true_iff in Ha'.
      destruct (IH a' r r' (proj2 Ha) (proj2 Ha') E2) as [-> ->].
      split; reflexivity.
Qed.

(** X13.  Nothing may follow the date: when a string is accepted, the same
    string with any further characters after it is rejected with
    [ValueError]. *)
Theorem trailing_characters_are_rejected :
  forall (s : text) (f : DateFeatures) (c : Z) (more : text),
    get_date_features s = Ok f ->
    get_date_features (s ++ c :: more)%list = Raise ValueError.
Proof.
  intros s f c more E.
  destruct (get_date_features (s ++ c :: more)%list) as [f'|e] eqn:E';
    [exfalso|apply get_date_features_raises in E'; subst e; reflexivity].
  apply get_date_features_ok in E. apply get_date_features_ok in E'.
  destruct E as (d & m & y & (dt & mt & yt & -> & Dd & Dm & Dy) & _ & _).
  destruct E' as (d' & m' & y' & (dt' & mt' & yt' & Es & Dd' & Dm' & Dy')
                  & _ & _).
  rewrite <- app_assoc in Es. cbn [app] in Es.
  apply split_at_dash in Es;
    [|eapply day_text_no_dash; eassumption..].
  destruct Es as [_ Es].
  rewrite <- app_assoc in Es. cbn [app] in Es.
  apply split_at_dash in Es;
    [|eapply month_text_no_dash; eassumption..].
  destruct Es as [_ Es].
  apply (f_equal (@List.length Z)) in Es.
  rewrite length_app in Es.
  pose proof (year_text_length _ _ Dy) as L.
  pose proof (year_text_length _ _ Dy') as L'.
  simpl in Es. lia.
Qed.

Lemma trailing_characters_are_rejected_witness :
  get_date_features (code_points "15-03-2024" ++ [char " "])%list
  = Raise ValueError.
Proof.
  exact (trailing_characters_are_rejected
           (code_points "15-03-2024") (mkFeatures 2024 3 15 4) (char " ") []
           eq_refl).
Defined.

(** X14.  From one day to the next the day of the week moves on by one,
    Sunday (6) being followed by Monday (0): when two accepted strings denote
    a date and the day after it, the second [DayOfWeek] is the first plus
    one modulo 7. *)
Theorem day_of_week_advances :
  forall (s s' : text) (f f' : DateFeatures),
    get_date_features s = Ok f ->
    get_date_features s' = Ok f' ->
    (Year f', Month f', Day f') = next_day (Year f) (Month f) (Day f) ->
    DayOfWeek f' = (DayOfWeek f + 1) mod 7.
Proof.
  intros s s' f f' E E' N.
  apply get_date_features_weekday in E.
  apply get_date_features_weekday in E'.
  destruct E as (d & m & y & _ & P & ->).
  destruct E' as (d' & m' & y' & _ & _ & ->).
  simpl in *. pose proof (weekday_next_day y m d P) as W.
  rewrite <- N in W. exact W.
Qed.

Lemma day_of_week_advances_witness :
  DayOfWeek (mkFeatures 2024 1 1 0) = (DayOfWeek (mkFeatures 2023 12 31 6) + 1) mod 7.
Proof.
  exact (day_of_week_advances (code_points "31-12-2023")
           (code_points "01-01-2024")
           (mkFeatures 2023 12 31 6) (mkFeatures 2024 1 1 0)
           eq_refl eq_refl eq_refl).
Defined.

(** ** The date string of the page *)

Lemma decimal_digits_four (fuel : nat) (y : Z) :
  (3 <= fuel)%nat -> 1000 <= y <= 9999 ->
  decimal_digits fuel y ""
  = String (digit_char (y / 1000)) (String (digit_char (y / 100 mod 10))
      (String (digit_char (y / 10 mod 10)) (String (digit_char (y mod 10)) ""))).
Proof.
  intros Hf Hy.
  destruct fuel as [|[|[|fuel]]]; try lia.
  cbn [decimal_digits].
  assert (T1 : (y <? 10) = false) by (apply Z.ltb_ge; lia).
  assert (T2 : (y / 10 <? 10) = false)
    by (apply Z.ltb_ge; Z.div_mod_to_equations; lia).
  assert (T3 : (y / 10 / 10 <? 10) = false)
    by (apply Z.ltb_ge; Z.div_mod_to_equations; lia).
  assert (T4 : (y / 10 / 10 / 10 <? 10) = true)
    by (apply Z.ltb_lt; Z.div_mod_to_equations; lia).
  rewrite T1, T2, T3.
  assert (D3 : y / 10 / 10 / 10 mod 10 = y / 1000)
    by (Z.div_mod_to_equations; lia).
  assert (D2 : y / 10 / 10 mod 10 = y / 100 mod 10)
    by (Z.div_mod_to_equations; lia).
  destruct fuel; cbn [decimal_digits]; rewrite ?T4, D3, D2; reflexivity.
Qed.

Lemma str_int_year (y : Z) :
  1000 <= y <= 9999 ->
  str_int y
  = String (digit_char (y / 1000)) (String (digit_char (y / 100 mod 10))
      (String (digit_char (y / 10 mod 10)) (String (digit_char (y mod 10)) ""))).
Proof.
  intros Hy. unfold str_int.
  replace (y <? 0) with false by (symmetry; apply Z.ltb_ge; lia).
  apply decimal_digits_four; [|exact Hy].
  pose proof (Z.log2_le_mono 8 y ltac:(lia)) as L.
  change (Z.log2 8) with 3 in L. lia.
Qed.

Lemma code_points_digit (n : Z) (r : string) :
  0 <= n <= 9 ->
  code_points (String (digit_char n) r) = ascii_digit n :: code_points r.
Proof.
  intros H. cbn [code_points].
  assert (E : byte_value (digit_char n) = ascii_digit n).
  { unfold byte_value, digit_char, ascii_digit.
    rewrite N_ascii_embedding by lia. lia. }
  rewrite E. unfold ascii_digit.
  replace (48 + n <? 128) with true by (symmetry; apply Z.ltb_lt; lia).
  reflexivity.
Qed.

Lemma code_points_strftime (y m d : Z) :
  1000 <= y <= 9999 -> 1 <= m <= 12 -> 1 <= d <= 31 ->
  code_points (strftime y m d)
  = ([ascii_digit (d / 10); ascii_digit (d mod 10)]
     ++ char "-" :: [ascii_digit (m / 10); ascii_digit (m mod 10)]
     ++ char "-" :: [ascii_digit (y / 1000); ascii_digit (y / 100 mod 10);
                     ascii_digit (y / 10 mod 10); ascii_digit (y mod 10)])%list.
Proof.
  intros Hy Hm Hd. unfold strftime, two_digits. rewrite (str_int_year y Hy).
  cbn [String.append].
  rewrite !code_points_digit by (Z.div_mod_to_equations; lia).
  change (code_points (String "-" ?r)) with (char "-" :: code_points r).
  rewrite !code_points_digit by (Z.div_mod_to_equations; lia).
  change (code_points (String "-" ?r)) with (char "-" :: code_points r).
  rewrite !code_points_digit by (Z.div_mod_to_equations; lia).
  reflexivity.
Qed.

(** X15.  The page never builds a date string that is refused: for a date of
    the calendar from year 1000 on, the string that
    [strftime("%d-%m-%Y")] writes is accepted by [get_date_features], which
    gives back the year, month and day of that very date. *)
Theorem strftime_round_trip :
  forall y m d : Z,
    possible_date y m d -> 1000 <= y <= 9999 ->
    get_date_features (code_points (strftime y m d))
    = Ok (mkFeatures y m d (day_of_week y m d)).
Proof.
  intros y m d P Hy. apply get_date_features_ok.
  exists d, m, y. split; [|split; [exact P|reflexivity]].
  destruct P as (_ & Pm & Pd). pose proof (month_length_bounds y m).
  rewrite code_points_strftime by lia.
  eexists. eexists. eexists. split; [reflexivity|]. split; [|split].
  - split; [lia|left]. exists (ascii_digit (d mod 10)).
    split; [reflexivity|]. split; [|right; reflexivity].
    apply digit_value_ascii. Z.div_mod_to_equations. lia.
  - split; [lia|left; reflexivity].
  - exists (ascii_digit (y / 1000)), (ascii_digit (y / 100 mod 10)),
      (ascii_digit (y / 10 mod 10)), (ascii_digit (y mod 10)),
      (y / 1000), (y / 100 mod 10), (y / 10 mod 10), (y mod 10).
    split; [reflexivity|].
    repeat (split; [apply digit_value_ascii; Z.div_mod_to_equations; lia|]).
    Z.div_mod_to_equations. lia.
Qed.

Lemma strftime_round_trip_witness :
  strftime 2026 11 3 = "03-11-2026"
  /\ get_date_features (code_points (strftime 2026 11 3))
     = Ok (mkFeatures 2026 11 3 1).
Proof.
  split; [reflexivity|].
  apply (strftime_round_trip 2026 11 3).
  - unfold possible_date. change (month_length 2026 11) with 30. lia.
  - lia.
Defined.

(** ** [remove_emojis] *)

(** X16.  [remove_emojis] removes the code points from U+10000 to U+10FFFF
    and nothing else: what is left are the other code points of the text, in
    their order; a text without such code points is returned as it is, and
    cleaning a second time changes nothing. *)
Theorem remove_emojis_removes_only_astral :
  forall text : list Z,
    (forall c, In c (remove_emojis text)
               <-> In c text /\ ~ (65536 <= c <= 1114111))
    /\ ((forall c, In c text -> c < 65536) -> remove_emojis text = text)
    /\ remove_emojis (remove_emojis text) = remove_emojis text
    /\ (forall more, remove_emojis (text ++ more)
                     = (remove_emojis text ++ remove_emojis more)%list).
Proof.
  intros text. unfold remove_emojis. split; [|split; [|split]].
  - intros c. rewrite filter_In, negb_true_iff, andb_false_iff.
    rewrite Z.leb_gt, Z.leb_gt. split; intros [H1 H2]; (split; [exact H1|lia]).
  - intros Hlow. induction text as [|c text IH]; [reflexivity|].
    simpl. assert (c < 65536) by (apply Hlow; left; reflexivity).
    replace (65536 <=? c) with false by (symmetry; apply Z.leb_gt; lia).
    simpl. f_equal. apply IH. intros c' Hc'. apply Hlow. right. exact Hc'.
  - induction text as [|c text IH]; [reflexivity|].
    simpl. destruct (negb ((65536 <=? c) && (c <=? 1114111))) eqn:E; simpl.
    + rewrite E, IH. reflexivity.
    + exact IH.
  - intros more. apply filter_app.
Qed.

Lemma all_true_Forall {A : Type} (p : A -> bool) (P : A -> Prop) (l : list A) :
  (forall a, p a = true -> P a) -> forallb p l = true -> Forall P l.
Proof.
  intros Hp Hall. apply Forall_forall. intros a Ha.
  apply Hp. rewrite forallb_forall in Hall. apply Hall, Ha.
Qed.

(** X17.  The advisory text as it goes into the report: for every AQI,
    cleaning the text of [get_health_tip] removes exactly one code point,
    the symbol at its head, and leaves printable ASCII only, namely a blank,
    the category of that AQI, a colon and a blank, and the advice. *)
Theorem clean_tip_is_plain_ascii :
  forall aqi : Z,
    Forall (fun c => 32 <= c < 127)
           (remove_emojis (code_points (get_health_tip aqi)))
    /\ (exists advice : list Z,
           remove_emojis (code_points (get_health_tip aqi))
           = (32 :: code_points (category_of aqi) ++ 58 :: 32 :: advice)%list)
    /\ S (List.length (remove_emojis (code_points (get_health_tip aqi))))
       = List.length (code_points (get_health_tip aqi)).
Proof.
  intros aqi. unfold get_health_tip, category_of.
  repeat match goal with
         | |- context [?x <=? ?y] => destruct (x <=? y)
         end;
    (split;
     [ apply (all_true_Forall (fun c => (32 <=? c) && (c <? 127)));
       [ intros c Hc; apply andb_true_iff in Hc;
         rewrite Z.leb_le, Z.ltb_lt in Hc; exact Hc
       | vm_compute; reflexivity ]
     | split; [eexists; cbv; reflexivity|vm_compute; reflexivity] ]).
Qed.

(** ** The AQI scale of the page *)

(** X18.  The scale table shown under the result agrees with the category
    ladder: each row is written "lo-hi" with a category, and among the AQI
    values from 0 to 500 the ones that get this category are exactly those
    from lo to hi; the rows list the six categories in the order of the
    ladder. *)
Theorem scale_table_agrees_with_ladder :
  Forall (fun row : string * string * string =>
            let '(range, category, _) := row in
            exists lo hi : Z,
              range = (str_int lo ++ "-" ++ str_int hi)%string
              /\ forall aqi : Z,
                  0 <= aqi <= 500 ->
                  (category_of aqi = category <-> lo <= aqi <= hi))
         scale_data
  /\ map (fun row : string * string * string => snd (fst row)) scale_data
     = ["Good"; "Satisfactory"; "Moderate"; "Poor"; "Very Poor"; "Severe"].
Proof.
  split; [|reflexivity].
  unfold scale_data.
  repeat (apply Forall_cons; [|]); [| | | | | |apply Forall_nil].
  - exists 0, 50. split; [reflexivity|]. intros aqi H.
    ladder aqi; match goal with E : category_of _ = _ |- _ => rewrite E end;
      split; intros; try lia; try discriminate; reflexivity.
  - exists 51, 100. split; [reflexivity|]. intros aqi H.
    ladder aqi; match goal with E : category_of _ = _ |- _ => rewrite E end;
      split; intros; try lia; try discriminate; reflexivity.
  - exists 101, 200. split; [reflexivity|]. intros aqi H.
    ladder aqi; match goal with E : category_of _ = _ |- _ => rewrite E end;
      split; intros; try lia; try discriminate; reflexivity.
  - exists 201, 300. split; [reflexivity|]. intros aqi H.
    ladder aqi; match goal with E : category_of _ = _ |- _ => rewrite E end;
      split; intros; try lia; try discriminate; reflexivity.
  - exists 301, 400. split; [reflexivity|]. intros aqi H.
    ladder aqi; match goal with E : category_of _ = _ |- _ => rewrite E end;
      split; intros; try lia; try discriminate; reflexivity.
  - exists 401, 500. split; [reflexivity|]. intros aqi H.
    ladder aqi; match goal with E : category_of _ = _ |- _ => rewrite E end;
      split; intros; try lia; try discriminate; reflexivity.
Qed.
